(** * Media ingestion of the source and target components

    A shallow embedding of [facefusion/uis/components/source.py] and
    [facefusion/uis/components/target.py]: the classification of a reference
    as URL or local path, the download of remote references, the check that a
    path lies in an allowed directory, the copy into the temp directory, and
    the two [update] handlers that drive them.

    Strings are sequences of one-byte characters ([string]); Python integers
    are [Z]; the filesystem is a finite map from resolved paths to file
    contents; exceptions are a sum type threaded through a state-and-error
    monad; the generator [download_in_chunks] is a resumable computation. *)

From Stdlib Require Import ZArith Ascii String List Lia Bool Sorted.
From Stdlib.Strings Require Import Byte.
From stdpp Require Import base option list gmap strings fin_maps.

Open Scope string_scope.
Open Scope list_scope.
Open Scope Z_scope.

(** ** Python's [str] methods used by the two modules *)

Module Py.

(** [c.lower()] on one character: only [A]..[Z] change. *)
Definition lower_ascii (c : ascii) : ascii :=
  let n := nat_of_ascii c in
  if (Nat.leb 65 n && Nat.leb n 90)%bool then ascii_of_nat (n + 32) else c.

(** [s.lower()] *)
Fixpoint lower (s : string) : string :=
  match s with
  | EmptyString => EmptyString
  | String c s' => String (lower_ascii c) (lower s')
  end.

(** [s.startswith(p)] *)
Definition startswith (s p : string) : bool := String.prefix p s.

(** [s.endswith(p)] for a one-character [p] *)
Fixpoint endswith_char (s : string) (c : ascii) : bool :=
  match s with
  | EmptyString => false
  | String a EmptyString => Ascii.eqb a c
  | String _ s' => endswith_char s' c
  end.

(** The characters [str.strip()] removes among the one-byte characters:
    tab, line feed, vertical tab, form feed, carriage return, the four
    separators 28..31 and the space. *)
Definition is_space (c : ascii) : bool :=
  let n := nat_of_ascii c in
  ((Nat.leb 9 n && Nat.leb n 13) || (Nat.leb 28 n && Nat.leb n 32))%bool.

Fixpoint lstrip (s : string) : string :=
  match s with
  | EmptyString => EmptyString
  | String c s' => if is_space c then lstrip s' else s
  end.

(** [rstrip]: a character is kept when it is not a space or when something
    is kept after it. *)
Fixpoint rstrip (s : string) : string :=
  match s with
  | EmptyString => EmptyString
  | String c s' =>
      match rstrip s' with
      | EmptyString => if is_space c then EmptyString else String c EmptyString
      | r => String c r
      end
  end.

(** [s.strip()] *)
Definition strip (s : string) : string := rstrip (lstrip s).

(** [s.split(sep)] for a one-character separator: always at least one
    field, empty fields are kept. *)
Fixpoint split (sep : ascii) (s : string) : list string :=
  match s with
  | EmptyString => [EmptyString]
  | String c s' =>
      if Ascii.eqb c sep then EmptyString :: split sep s'
      else match split sep s' with
           | [] => [String c EmptyString]
           | w :: ws => String c w :: ws
           end
  end.

(** Truth value of a string: [if s:] *)
Definition truthy (s : string) : bool :=
  match s with EmptyString => false | _ => true end.

(** [s.rfind(c)]: the index of the last occurrence of [c], or [-1]. *)
Fixpoint rfind_from (i : Z) (last : Z) (s : string) (c : ascii) : Z :=
  match s with
  | EmptyString => last
  | String a s' => rfind_from (i + 1) (if Ascii.eqb a c then i else last) s' c
  end.

Definition rfind (s : string) (c : ascii) : Z := rfind_from 0 (-1) s c.

(** The slices [s[i:]] and [s[:i]] for [0 <= i]. *)
Fixpoint drop (n : nat) (s : string) : string :=
  match n, s with
  | O, _ => s
  | S n', String _ s' => drop n' s'
  | S _, EmptyString => EmptyString
  end.

Fixpoint take (n : nat) (s : string) : string :=
  match n, s with
  | O, _ => EmptyString
  | S n', String c s' => String c (take n' s')
  | S _, EmptyString => EmptyString
  end.

Definition slice_from (s : string) (i : Z) : string := drop (Z.to_nat i) s.
Definition slice_to (s : string) (i : Z) : string := take (Z.to_nat i) s.

End Py.

(** ** [os.path] on a POSIX system *)

Module PosixPath.

Definition sep : ascii := "/"%char.
Definition extsep : ascii := "."%char.

(** [os.path.basename(p)]: what follows the last separator. *)
Definition basename (p : string) : string :=
  Py.slice_from p (Py.rfind p sep + 1).

(** [os.path.join(a, b)] *)
Definition join (a b : string) : string :=
  if Py.startswith b (String sep EmptyString) then b
  else if (negb (Py.truthy a) || Py.endswith_char a sep)%bool then a +:+ b
  else a +:+ String sep b.

(** The loop of [genericpath._splitext] that skips the leading dots of the
    file name: [true] as soon as a character other than a dot is met in
    [filenameIndex .. dotIndex - 1]. *)
Fixpoint has_non_dot (count : nat) (filenameIndex : nat) (p : string) : bool :=
  match count with
  | O => false
  | S count' =>
      match String.get filenameIndex p with
      | Some c =>
          if Ascii.eqb c extsep then has_non_dot count' (S filenameIndex) p
          else true
      | None => true
      end
  end.

(** [os.path.splitext(p)] *)
Definition splitext (p : string) : string * string :=
  let sepIndex := Py.rfind p sep in
  let dotIndex := Py.rfind p extsep in
  if (sepIndex <? dotIndex) &&
     has_non_dot (Z.to_nat (dotIndex - (sepIndex + 1))) (Z.to_nat (sepIndex + 1)) p
  then (Py.slice_to p dotIndex, Py.slice_from p dotIndex)
  else (p, EmptyString).

End PosixPath.

(** ** Exceptions and results *)

Inductive Exn : Type :=
| HTTPError (status : Z)   (* raised by [response.raise_for_status()] *)
| ConnectionError          (* [requests.get] could not reach the server *)
| FileExistsError          (* [tempfile]: no usable temporary file name *)
| FileNotFoundError        (* [shutil.copy2]: the source is not there *)
| SameFileError.           (* [shutil.copy2]: source and destination are one file *)

Inductive Result (A : Type) : Type :=
| Ok (a : A)
| Raise (e : Exn).

Arguments Ok {A} a.
Arguments Raise {A} e.

(** ** The world around the two modules *)

(** What [requests.get(url)] answers: the status code, the [Content-Length]
    header when the server sent one, and the body in the pieces in which the
    transport delivers it. *)
Record Response : Type := {
  status_code : Z;
  content_length : option Z;
  body_parts : list (list byte)
}.

(** An uploaded file as Gradio hands it over: only [name] is read. *)
Record File : Type := { name : string }.

(** The mutable part: the regular files (keyed by resolved path), the number
    of names drawn so far from [tempfile]'s random name sequence, and the
    three items of [state_manager] the modules read or write. Directories
    and symbolic links are not part of the state: how a path resolves is
    fixed by [realpath] below, and only regular files come and go. *)
Record State : Type := {
  files : gmap string (list byte);
  names_drawn : nat;
  custom_temp_folder : option string;
  target_path : option string;
  source_paths : option (list string)
}.

(** The part the modules only read. The last five fields are helpers of the
    application that live outside the two modules ([facefusion.filesystem])
    and the iteration order of a Python [set], which the language leaves
    open; they are parameters of the development. *)
Record Env : Type := {
  getcwd : string;                            (* os.getcwd() *)
  gettempdir : string;                        (* tempfile.gettempdir() *)
  realpath : string -> string;                (* os.path.realpath *)
  requests_get : string -> option Response;   (* None: no response at all *)
  random_name : nat -> string;                (* tempfile's candidate names *)
  set_order : list string -> list string;     (* list(set(xs)) *)
  is_audio : State -> string -> bool;
  is_image : State -> string -> bool;
  is_video : State -> string -> bool;
  get_file_size : State -> string -> Z
}.

(** [list(set(xs))] has the elements of [xs], each once, in some order. *)
Definition set_order_ok (e : Env) : Prop :=
  forall xs : list string,
    NoDup (set_order e xs) /\ forall x, x ∈ set_order e xs <-> x ∈ xs.

Definition set_files (f : gmap string (list byte)) (s : State) : State :=
  {| files := f; names_drawn := names_drawn s;
     custom_temp_folder := custom_temp_folder s;
     target_path := target_path s; source_paths := source_paths s |}.

Definition set_names_drawn (n : nat) (s : State) : State :=
  {| files := files s; names_drawn := n;
     custom_temp_folder := custom_temp_folder s;
     target_path := target_path s; source_paths := source_paths s |}.

Definition set_target_path (p : option string) (s : State) : State :=
  {| files := files s; names_drawn := names_drawn s;
     custom_temp_folder := custom_temp_folder s;
     target_path := p; source_paths := source_paths s |}.

Definition set_source_paths (ps : option (list string)) (s : State) : State :=
  {| files := files s; names_drawn := names_drawn s;
     custom_temp_folder := custom_temp_folder s;
     target_path := target_path s; source_paths := ps |}.


(** ** State-and-exception monad *)

Definition M (A : Type) : Type := State -> State * Result A.

Definition ret {A : Type} (a : A) : M A := fun s => (s, Ok a).

Definition raise {A : Type} (e : Exn) : M A := fun s => (s, Raise e).

Definition bind {A B : Type} (m : M A) (k : A -> M B) : M B :=
  fun s =>
    match m s with
    | (s1, Ok a) => k a s1
    | (s1, Raise e) => (s1, Raise e)
    end.

Declare Scope py_scope.
Delimit Scope py_scope with py.
Notation "'let*' x ':=' m 'in' k" := (bind m (fun x => k))
  (at level 10, x name, m at level 100, k at level 200) : py_scope.
Notation "m ';;' k" := (bind m (fun _ => k))
  (at level 100, k at level 200, right associativity) : py_scope.

(** ** Filesystem primitives *)

Module Fs.

(** The contents of the regular file [p] resolves to, if there is one. *)
Definition read (e : Env) (s : State) (p : string) : option (list byte) :=
  files s !! realpath e p.

(** [os.path.isfile(p)] *)
Definition isfile (e : Env) (s : State) (p : string) : bool :=
  match read e s p with Some _ => true | None => false end.

(** Opening [p] with [O_CREAT | O_EXCL] once [p] is known to be free. *)
Definition create (e : Env) (p : string) (s : State) : State :=
  set_files (<[realpath e p := []]> (files s)) s.

(** [f.write(data)] on the file opened at [p]: the data goes to its end. *)
Definition append (e : Env) (p : string) (data : list byte) (s : State) : State :=
  set_files (<[realpath e p := default [] (read e s p) ++ data]> (files s)) s.

(** [shutil.copy2(src, dst)]: refuses a missing source and a destination
    that is the source itself; otherwise [dst] gets the contents of [src]
    and whatever was at [dst] is overwritten. *)
Definition copy2 (e : Env) (src dst : string) : M unit :=
  fun s =>
    match read e s src with
    | None => (s, Raise FileNotFoundError)
    | Some data =>
        if String.eqb (realpath e src) (realpath e dst)
        then (s, Raise SameFileError)
        else (set_files (<[realpath e dst := data]> (files s)) s, Ok tt)
    end.

End Fs.

(** ** [tempfile.NamedTemporaryFile(delete=False, suffix=..., dir=...)] *)

Module Tempfile.

Definition TMP_MAX : nat := Z.to_nat 10000.

(** [_mkstemp_inner]: draw candidate names until one is free, at most
    [TMP_MAX] times; the file is created empty under that name. [dir] is
    taken as it is given, as for the absolute [gettempdir()]; the library
    makes a relative [dir] absolute first. *)
Fixpoint mkstemp_inner (e : Env) (fuel : nat) (dir pre suf : string) (s : State)
  : State * Result string :=
  match fuel with
  | O => (s, Raise FileExistsError)
  | S fuel' =>
      let name := random_name e (names_drawn s) in
      let s1 := set_names_drawn (S (names_drawn s)) s in
      let file := PosixPath.join dir (pre +:+ name +:+ suf) in
      if Fs.isfile e s1 file then mkstemp_inner e fuel' dir pre suf s1
      else (Fs.create e file s1, Ok file)
  end.

(** The call returns the name of the file it opened ([tmp_file.name]). *)
Definition NamedTemporaryFile (e : Env) (suffix dir : string) : M string :=
  mkstemp_inner e TMP_MAX dir "tmp" suffix.

End Tempfile.

(** ** [requests] *)

Module Requests.

(** [requests.get(url)] *)
Definition get (e : Env) (url : string) : M Response :=
  match requests_get e url with
  | Some r => ret r
  | None => raise ConnectionError
  end.

(** [response.raise_for_status()]: the 4xx and 5xx codes raise. *)
Definition raise_for_status (r : Response) : M unit :=
  if (400 <=? status_code r) && (status_code r <? 600)
  then raise (HTTPError (status_code r))
  else ret tt.

(** [response.content]: the whole body. *)
Definition content (r : Response) : list byte := concat (body_parts r).

(** One delivered piece cut into chunks of at most [n] bytes. A piece
    that already fits, the empty one included, is passed on as it is. *)
Fixpoint cut (fuel : nat) (n : nat) (piece : list byte) : list (list byte) :=
  match fuel with
  | O => [piece]
  | S fuel' =>
      if Nat.leb (length piece) n then [piece]
      else take n piece :: cut fuel' n (drop n piece)
  end.

(** [response.iter_content(chunk_size=n)] *)
Definition iter_content (n : Z) (r : Response) : list (list byte) :=
  flat_map (fun piece => cut (length piece) (Z.to_nat n) piece) (body_parts r).

End Requests.

Local Open Scope py_scope.

(** ** [facefusion/uis/components/source.py] *)

Module Source.

(** What the handler hands back to Gradio: the value of the audio preview
    and of the image preview ([visible] is [value is not None] in both). *)
Record Preview : Type := {
  audio_value : option string;
  image_value : option string
}.

Definition is_url (path : string) : bool :=
  Py.startswith (Py.lower path) "http://" || Py.startswith (Py.lower path) "https://".

Definition is_valid_local_file (e : Env) (s : State) (path : string) : bool :=
  Fs.isfile e s path.

(** [os.makedirs(temp_dir, exist_ok=True)] changes no regular file and is
    left out. The temp file is opened before the request is sent, so it
    stays behind, empty, when the request fails. *)
Definition download_file (e : Env) (url : string) : M string :=
  let temp_dir := gettempdir e in
  let ext := snd (PosixPath.splitext url) in
  let ext := if Py.truthy ext then ext else ".tmp" in
  let* tmp_file_path := Tempfile.NamedTemporaryFile e ext temp_dir in
  let* response := Requests.get e url in
  Requests.raise_for_status response ;;
  (fun s => (Fs.append e tmp_file_path (Requests.content response) s, Ok tt)) ;;
  ret tmp_file_path.

(** The three cases [process_path] tells apart, by the tests it makes in
    the order it makes them. *)
Inductive PathClass : Type := Remote | LocalExisting | LocalMissing.

Definition classify (e : Env) (s : State) (path : string) : PathClass :=
  if is_url path then Remote
  else if is_valid_local_file e s path then LocalExisting
  else LocalMissing.

Definition process_path (e : Env) (path : string) : M (option string) :=
  fun s =>
    if is_url path then
      (let* local := download_file e path in ret (Some local)) s
    else if is_valid_local_file e s path then (s, Ok (Some path))
    else (s, Ok None).

Definition is_in_allowed_dirs (e : Env) (filepath : string) : bool :=
  let real_path := realpath e filepath in
  let real_cwd := realpath e (getcwd e) in
  let real_temp := realpath e (gettempdir e) in
  if Py.startswith real_path real_cwd || Py.startswith real_path real_temp
  then true
  else false.

Definition ensure_in_temp (e : Env) (filepath : string) : M string :=
  if is_in_allowed_dirs e filepath then ret filepath
  else
    let temp_dir := gettempdir e in
    let base_name := PosixPath.basename filepath in
    let new_path := PosixPath.join temp_dir base_name in
    Fs.copy2 e filepath new_path ;;
    ret new_path.

(** [[p.strip() for p in text_str.split(",") if p.strip()]] *)
Definition textbox_paths (text_str : string) : list string :=
  List.map Py.strip
    (List.filter (fun p => Py.truthy (Py.strip p)) (Py.split ","%char text_str)).

(** The names of the uploaded files that have one. *)
Definition file_paths (files : list (option File)) : list string :=
  flat_map (fun f => match f with
                     | Some f' => if Py.truthy (name f') then [name f'] else []
                     | None => []
                     end) files.

(** [all_raw_paths = list(set(textbox_paths + file_paths))] *)
Definition all_raw_paths (e : Env) (text_str : string) (files : list (option File))
  : list string :=
  set_order e (textbox_paths text_str ++ file_paths files).

(** The loop of [update] that fills [processed_paths]. *)
Fixpoint process_all (e : Env) (paths : list string) (processed_paths : list string)
  : M (list string) :=
  match paths with
  | [] => ret processed_paths
  | p :: rest =>
      let* local_p := process_path e p in
      match local_p with
      | Some lp =>
          if Py.truthy lp then
            let* safe_path := ensure_in_temp e lp in
            process_all e rest (processed_paths ++ [safe_path])
          else process_all e rest processed_paths
      | None => process_all e rest processed_paths
      end
  end.

(** Steps 1 to 4 of [update]: the value of [processed_paths] when the loop
    has run. *)
Definition update_processed_paths (e : Env) (text_str : string)
    (files : list (option File)) : M (list string) :=
  process_all e (all_raw_paths e text_str files) [].

(** [has_audio], [has_image], [filter_audio_paths], [filter_image_paths] and
    [get_first] of the application, over the parameters [is_audio] and
    [is_image]. *)
Definition has_audio (e : Env) (s : State) (paths : list string) : bool :=
  existsb (is_audio e s) paths.
Definition has_image (e : Env) (s : State) (paths : list string) : bool :=
  existsb (is_image e s) paths.
Definition filter_audio_paths (e : Env) (s : State) (paths : list string) : list string :=
  List.filter (is_audio e s) paths.
Definition filter_image_paths (e : Env) (s : State) (paths : list string) : list string :=
  List.filter (is_image e s) paths.
Definition get_first {A : Type} (xs : list A) : option A := head xs.

Definition update (e : Env) (text_str : string) (files : list (option File))
  : M Preview :=
  let* processed_paths := update_processed_paths e text_str files in
  fun s =>
    if has_audio e s processed_paths || has_image e s processed_paths then
      let source_audio_path := get_first (filter_audio_paths e s processed_paths) in
      let source_image_path := get_first (filter_image_paths e s processed_paths) in
      (set_source_paths (Some processed_paths) s,
       Ok {| audio_value := source_audio_path; image_value := source_image_path |})
    else
      (set_source_paths None s,
       Ok {| audio_value := None; image_value := None |}).

(** What [render] puts into the four components: the text of the text box,
    the value of the file component, and value and visibility of the two
    previews. *)
Record Rendered : Type := {
  path_textbox : string;
  source_file : option (list string);
  source_audio : option string;
  source_audio_visible : bool;
  source_image : option string;
  source_image_visible : bool
}.

(** [render]: the components are built from the stored paths
    ([state_manager.get_item('source_paths') or []]). *)
Definition render (e : Env) (s : State) : Rendered :=
  let stored_paths := default [] (source_paths s) in
  let stored_paths_str :=
    match stored_paths with
    | [] => ""
    | _ :: _ => String.concat ", " stored_paths
    end in
  let user_has_audio := has_audio e s stored_paths in
  let user_has_image := has_image e s stored_paths in
  let source_audio_path :=
    if user_has_audio then get_first (filter_audio_paths e s stored_paths) else None in
  let source_image_path :=
    if user_has_image then get_first (filter_image_paths e s stored_paths) else None in
  {| path_textbox := stored_paths_str;
     source_file := if user_has_audio || user_has_image then Some stored_paths else None;
     source_audio := if user_has_audio then source_audio_path else None;
     source_audio_visible := user_has_audio;
     source_image := if user_has_image then source_image_path else None;
     source_image_visible := user_has_image |}.

End Source.

(** ** Generators *)

(** A generator that is being run: it has either finished (normally or by an
    exception) in some state, or it is suspended at a [yield] with the state
    it reached, and resumes from the state its consumer hands back. *)
Inductive Gen (Y : Type) : Type :=
| GStop (s : State) (r : Result unit)
| GYield (y : Y) (s : State) (resume : State -> Gen Y).

Arguments GStop {Y} s r.
Arguments GYield {Y} y s resume.

(** Running a generator to its end with a consumer that leaves the state
    alone between two values: the values, the final state, the outcome. *)
Fixpoint drain {Y : Type} (g : Gen Y) : list Y * State * Result unit :=
  match g with
  | GStop s r => ([], s, r)
  | GYield y s resume =>
      let '(ys, s', r) := drain (resume s) in (y :: ys, s', r)
  end.

(** ** [facefusion/uis/components/target.py] *)

Module Target.

Definition FILE_SIZE_LIMIT : Z := 512 * 1024 * 1024.

(** What [download_in_chunks] yields: the tuple
    [(downloaded, total_size, tmp_path)] or the final path, a string. *)
Inductive Part : Type :=
| Progress (downloaded total : Z) (tmp_path : string)
| FinalPath (path : string).

(** The third component of what [update] yields, one constructor per
    message of the source. *)
Inductive Info : Type :=
| NoInput               (* "No file or URL provided." *)
| DownloadingPct (pct : Z)        (* "Downloading... %{pct}" *)
| DownloadedBytes (downloaded : Z)  (* "Downloaded bytes: {downloaded}" *)
| DownloadComplete      (* "Download complete!" *)
| InvalidOrMissing      (* "Invalid or missing file." *)
| ImageLoaded           (* "Image loaded!" *)
| VideoTooLarge         (* "Video size too large. Showing first frame only." *)
| VideoLoaded           (* "Video loaded!" *)
| NeitherImageNorVideo. (* "File is neither an image nor a video." *)

(** The value of the image preview: a path, or the first frame of a video
    ([normalize_frame_color(get_video_frame(path))]). *)
Inductive ImageValue : Type :=
| ImagePath (path : string)
| FirstFrame (video_path : string).

(** One value yielded by [update]; [visible] is [value is not None]. *)
Record Shown : Type := {
  image_value : option ImageValue;
  video_value : option string;
  info : Info
}.

Definition blank (i : Info) : Shown :=
  {| image_value := None; video_value := None; info := i |}.

Definition is_in_allowed_dir (e : Env) (path : string) : bool :=
  let real_p := realpath e path in
  let real_cwd := realpath e (getcwd e) in
  let real_temp := realpath e (gettempdir e) in
  Py.startswith real_p real_cwd || Py.startswith real_p real_temp.

Definition ensure_in_allowed_dir (e : Env) (filepath : string) : M string :=
  fun s =>
    if negb (Fs.isfile e s filepath) then (s, Ok "")
    else if is_in_allowed_dir e filepath then (s, Ok filepath)
    else
      let temp_dir := gettempdir e in
      let base_name := PosixPath.basename filepath in
      let new_path := PosixPath.join temp_dir base_name in
      (Fs.copy2 e filepath new_path ;; ret new_path) s.

(** The [for chunk in r.iter_content(...)] loop inside the [with] block,
    followed by the final [yield tmp_path]. *)
Fixpoint write_chunks (e : Env) (tmp_path : string) (total_size : Z)
    (chunks : list (list byte)) (downloaded : Z) (s : State) : Gen Part :=
  match chunks with
  | [] => GYield (FinalPath tmp_path) s (fun s' => GStop s' (Ok tt))
  | chunk :: rest =>
      match chunk with
      | [] => write_chunks e tmp_path total_size rest downloaded s
      | _ :: _ =>
          let s1 := Fs.append e tmp_path chunk s in
          let downloaded := downloaded + Z.of_nat (length chunk) in
          GYield (Progress downloaded total_size tmp_path) s1
                 (write_chunks e tmp_path total_size rest downloaded)
      end
  end.

Definition chunk_size : Z := 1024 * 256.

(** The folder [download_in_chunks] writes to: the one the user chose
    ([state_manager.get_item('custom_temp_folder')]) when there is one, the
    system temp directory otherwise. *)
Definition download_folder (e : Env) (s : State) : string :=
  match custom_temp_folder s with
  | Some custom_folder =>
      if Py.truthy custom_folder then custom_folder else gettempdir e
  | None => gettempdir e
  end.

(** [os.makedirs(..., exist_ok=True)] changes no regular file and is left
    out. The request is sent before the temp file is opened. *)
Definition download_in_chunks (e : Env) (url : string) (s : State) : Gen Part :=
  let download_folder := download_folder e s in
  let ext := snd (PosixPath.splitext url) in
  let ext := if Py.truthy ext then ext else ".tmp" in
  match (let* r := Requests.get e url in Requests.raise_for_status r ;; ret r) s with
  | (s0, Raise ex) => GStop s0 (Raise ex)
  | (s0, Ok r) =>
      let total_size := match content_length r with Some n => n | None => 0 end in
      let downloaded := 0 in
      match Tempfile.NamedTemporaryFile e ext download_folder s0 with
      | (s1, Raise ex) => GStop s1 (Raise ex)
      | (s1, Ok tmp_path) =>
          write_chunks e tmp_path total_size
            (Requests.iter_content chunk_size r) downloaded s1
      end
  end.

(** A run of [update]: the values yielded, the final state, the outcome. *)
Definition Run (A : Type) : Type := (list Shown * State * Result A)%type.

(** The [for part in local_path_generator] loop of [update]; [local_path]
    is the variable of that name, [None] until the final path arrives. *)
Fixpoint consume (e : Env) (g : Gen Part) (local_path : option string)
  : Run (option string) :=
  match g with
  | GStop s (Ok _) => ([], s, Ok local_path)
  | GStop s (Raise ex) => ([], s, Raise ex)
  | GYield (Progress downloaded total _) s resume =>
      let shown :=
        if 0 <? total
        then blank (DownloadingPct (downloaded * 100 / total))
        else blank (DownloadedBytes downloaded) in
      let '(ys, s', r) := consume e (resume s) local_path in
      (shown :: ys, s', r)
  | GYield (FinalPath path) s resume =>
      match ensure_in_allowed_dir e path s with
      | (s1, Raise ex) => ([], s1, Raise ex)
      | (s1, Ok safe_path) =>
          let '(ys, s', r) := consume e (resume s1) (Some safe_path) in
          (blank DownloadComplete :: ys, s', r)
      end
  end.

(** [final_raw_path]: the uploaded file's name when there is one, the
    stripped text otherwise. *)
Definition final_raw_path (textbox_value : string) (file : option File) : string :=
  let text_path := if Py.truthy textbox_value then Py.strip textbox_value else "" in
  let file_path := match file with Some f => name f | None => "" end in
  if Py.truthy file_path then file_path else text_path.

(** The part of [update] that obtains [local_path]: download for a URL,
    [ensure_in_allowed_dir] for a local path. *)
Definition obtain_local_path (e : Env) (raw : string) (s : State)
  : Run (option string) :=
  if Py.startswith (Py.lower raw) "http://" || Py.startswith (Py.lower raw) "https://"
  then consume e (download_in_chunks e raw s) None
  else
    match ensure_in_allowed_dir e raw s with
    | (s1, Raise ex) => ([], s1, Raise ex)
    | (s1, Ok p) => ([], s1, Ok (Some p))
    end.

(** [get_file_size(local_path) > FILE_SIZE_LIMIT] *)
Definition oversized (e : Env) (s : State) (local_path : string) : bool :=
  FILE_SIZE_LIMIT <? get_file_size e s local_path.

(** The end of [update], once [local_path] is a non-empty string. *)
Definition present (e : Env) (local_path : string) (s : State) : Shown * State :=
  if is_image e s local_path then
    ({| image_value := Some (ImagePath local_path); video_value := None;
        info := ImageLoaded |},
     set_target_path (Some local_path) s)
  else if is_video e s local_path then
    let s1 := set_target_path (Some local_path) s in
    if oversized e s1 local_path then
      ({| image_value := Some (FirstFrame local_path); video_value := None;
          info := VideoTooLarge |}, s1)
    else
      ({| image_value := None; video_value := Some local_path;
          info := VideoLoaded |}, s1)
  else (blank NeitherImageNorVideo, set_target_path None s).

(** [clear_reference_faces()] and [clear_static_faces()] touch the face
    store only and are left out. *)
Definition update (e : Env) (textbox_value : string) (file : option File)
    (s : State) : Run unit :=
  let raw := final_raw_path textbox_value file in
  if negb (Py.truthy raw) then
    ([blank NoInput], set_target_path None s, Ok tt)
  else
    match obtain_local_path e raw s with
    | (ys, s1, Raise ex) => (ys, s1, Raise ex)
    | (ys, s1, Ok local_path) =>
        match local_path with
        | Some p =>
            if Py.truthy p then
              let '(shown, s2) := present e p s1 in (ys ++ [shown], s2, Ok tt)
            else (ys ++ [blank InvalidOrMissing], set_target_path None s1, Ok tt)
        | None => (ys ++ [blank InvalidOrMissing], set_target_path None s1, Ok tt)
        end
    end.


(** What [render] puts into the components: the two text boxes, the file
    component, and value and visibility of the two previews (the progress
    box starts empty). *)
Record Rendered : Type := {
  download_dir_textbox : string;
  target_path_textbox : string;
  target_file : option string;
  target_image : option ImageValue;
  target_image_visible : bool;
  target_video : option string;
  target_video_visible : bool
}.

(** [render]. The application's [is_image] and [is_video] answer [False]
    when no target path is stored. The two tests on the kind are
    independent [if]s, the second may overwrite what the first has set. *)
Definition render (e : Env) (s : State) : Rendered :=
  let custom_temp_folder := default "" (custom_temp_folder s) in
  let stored_target_path := target_path s in
  let is_target_image :=
    match stored_target_path with Some p => is_image e s p | None => false end in
  let is_target_video :=
    match stored_target_path with Some p => is_video e s p | None => false end in
  let image0 : option ImageValue * bool := (None, false) in
  let video0 : option string * bool := (None, false) in
  let image1 :=
    if is_target_image
    then (option_map ImagePath stored_target_path, true) else image0 in
  let '(image2, video2) :=
    if is_target_video then
      match stored_target_path with
      | Some p =>
          if FILE_SIZE_LIMIT <? get_file_size e s p
          then ((Some (FirstFrame p), true), video0)
          else (image1, (Some p, true))
      | None => (image1, video0)
      end
    else (image1, video0) in
  {| download_dir_textbox := custom_temp_folder;
     target_path_textbox := default "" stored_target_path;
     target_file :=
       if is_target_image || is_target_video then stored_target_path else None;
     target_image := fst image2;
     target_image_visible := snd image2;
     target_video := fst video2;
     target_video_visible := snd video2 |}.

End Target.

(** ** Containment, in the words of the spec *)

Module Spec.

(** [p] is a path-prefix descendant of [root]: it is [root] itself or it
    continues [root] after a separator. *)
Definition descendant (root p : string) : bool :=
  String.eqb p root ||
  Py.startswith p (if Py.endswith_char root "/"%char then root else root +:+ "/").

(** AllowedRoots: the resolved working directory, the resolved temp
    directory and, when one is configured, the resolved download
    directory. *)
Definition allowed_roots (e : Env) (download_dir : option string) : list string :=
  realpath e (getcwd e) :: realpath e (gettempdir e) ::
  match download_dir with Some d => [realpath e d] | None => [] end.

(** A path is contained when its resolved form descends from a root. *)
Definition contained (e : Env) (download_dir : option string) (p : string) : bool :=
  existsb (fun root => descendant root (realpath e p)) (allowed_roots e download_dir).


Definition copied_to_temp (e : Env) (s : State) (filepath : string)
    (run : State * Result string) : Prop :=
  let new_path := PosixPath.join (gettempdir e) (PosixPath.basename filepath) in
  if decide (realpath e filepath = realpath e new_path)
  then run = (s, Raise SameFileError)
  else exists s',
      run = (s', Ok new_path) /\
      Fs.read e s' new_path = Fs.read e s filepath /\
      forall q, realpath e q <> realpath e new_path -> Fs.read e s' q = Fs.read e s q.

(** The name of a temp file: a prefix, then the extension of the URL, or
    [.tmp] when the URL has none. *)
Definition suffix_for (url : string) : string :=
  match snd (PosixPath.splitext url) with
  | EmptyString => ".tmp"
  | ext => ext
  end.

Definition temp_file_name (prefix url : string) : string :=
  prefix +:+ suffix_for url.

(** A fetch succeeds when the server answers and the status is not an
    error status. *)
Definition fetch_succeeds (e : Env) (url : string) (r : Response) : Prop :=
  requests_get e url = Some r /\ ~ (400 <= status_code r < 600).

Definition fetch_fails (e : Env) (url : string) : Prop :=
  match requests_get e url with
  | Some r => 400 <= status_code r < 600
  | None => True
  end.


(** The chunks that carry data, and the byte count after each of them. *)
Definition nonempty (chunks : list (list byte)) : list (list byte) :=
  List.filter (fun c => negb (Nat.eqb (length c) 0)) chunks.

Fixpoint running_totals (start : Z) (chunks : list (list byte)) : list Z :=
  match chunks with
  | [] => []
  | c :: rest =>
      let d := start + Z.of_nat (length c) in d :: running_totals d rest
  end.

(** The [downloaded] values of the progress events of a sequence. *)
Definition downloaded_values (parts : list Target.Part) : list Z :=
  flat_map (fun part => match part with
                        | Target.Progress d _ _ => [d]
                        | Target.FinalPath _ => []
                        end) parts.

(** What [update] shows for a progress tuple. *)
Definition progress_shown (total downloaded : Z) : Target.Shown :=
  if 0 <? total
  then Target.blank (Target.DownloadingPct (downloaded * 100 / total))
  else Target.blank (Target.DownloadedBytes downloaded).

(** The state once the chunks that carry data are written to [tmp_path]. *)
Definition write_all (e : Env) (tmp_path : string) (chunks : list (list byte))
    (s : State) : State :=
  fold_left (fun s' chunk => Fs.append e tmp_path chunk s') (nonempty chunks) s.

(** From [s] to [s'] no regular file has disappeared, the three items of
    [state_manager] are what they were, and no drawn name is given back. *)
Definition extends (e : Env) (s s' : State) : Prop :=
  (forall q, Fs.isfile e s q = true -> Fs.isfile e s' q = true) /\
  custom_temp_folder s' = custom_temp_folder s /\
  target_path s' = target_path s /\
  source_paths s' = source_paths s /\
  (names_drawn s <= names_drawn s')%nat.

(** The helpers of the application look at the files only, not at the
    items of [state_manager]. *)
Definition helpers_read_files_only (e : Env) : Prop :=
  forall (s1 s2 : State) (p : string),
    files s1 = files s2 ->
    is_audio e s1 p = is_audio e s2 p /\
    is_image e s1 p = is_image e s2 p /\
    is_video e s1 p = is_video e s2 p /\
    get_file_size e s1 p = get_file_size e s2 p.

(** A reference that survives the text box: not empty, no space around
    it, no comma in it. *)
Fixpoint has_comma (p : string) : bool :=
  match p with
  | EmptyString => false
  | String c p' => Ascii.eqb c ","%char || has_comma p'
  end.

Definition clean_reference (p : string) : Prop :=
  Py.truthy p = true /\ Py.strip p = p /\ has_comma p = false.

End Spec.

(** ** Concrete worlds *)

Module Demo.

(** [os.path.realpath] on a filesystem without symbolic links: the path is
    made absolute and its [.], [..] and empty components are resolved. *)
Fixpoint resolve (stack : list string) (components : list string) : list string :=
  match components with
  | [] => stack
  | c :: rest =>
      if String.eqb c "" || String.eqb c "." then resolve stack rest
      else if String.eqb c ".." then resolve (removelast stack) rest
      else resolve (stack ++ [c]) rest
  end.

Definition normpath (cwd : string) (p : string) : string :=
  let absolute := if Py.startswith p "/" then p else cwd +:+ "/" +:+ p in
  match resolve [] (Py.split "/"%char absolute) with
  | [] => "/"
  | cs => String.concat "" (List.map (fun c => "/" +:+ c) cs)
  end.

(** Modelled from the spec: the media kind of a path, decided by its
    extension alone (images: jpg, jpeg, png, gif, bmp; audio: mp3, wav,
    ogg, flac), case-insensitively; the application's own [is_image],
    [is_audio] and [is_video] are outside the two modules. The spec leaves
    the video table open, a few container extensions stand for it. *)
Definition has_ext (exts : list string) (p : string) : bool :=
  existsb (String.eqb (Py.lower (snd (PosixPath.splitext p)))) exts.

Definition ext_is_image (_ : State) (p : string) : bool :=
  has_ext [".jpg"; ".jpeg"; ".png"; ".gif"; ".bmp"] p.
Definition ext_is_audio (_ : State) (p : string) : bool :=
  has_ext [".mp3"; ".wav"; ".ogg"; ".flac"] p.
Definition ext_is_video (_ : State) (p : string) : bool :=
  has_ext [".mp4"; ".mkv"; ".mov"; ".avi"; ".webm"] p.

(** A file size read from the map of files. *)
Definition stat_size (rp : string -> string) (s : State) (p : string) : Z :=
  match files s !! rp p with
  | Some data => Z.of_nat (length data)
  | None => 0
  end.

(** Candidate names: [f7], [f7q], [f7qq], ... *)
Fixpoint tally (n : nat) : string :=
  match n with O => "" | S n' => String "q"%char (tally n') end.
Definition names (n : nat) : string := "f7" +:+ tally n.

(** A set order that happens to keep the first occurrence of each element
    in place. *)
Definition first_seen (xs : list string) : list string :=
  reverse (remove_dups (reverse xs)).

Definition png_body : list (list byte) := [[x89; x50; x4e]; []; [x47; x0d]].

(** The network: one URL that answers 200 with a five-byte body, one
    without extension that answers 200 with one byte and no announced
    length, one that answers 404, nothing else reachable. *)
Definition net (url : string) : option Response :=
  if String.eqb url "https://example.com/cat.png" then
    Some {| status_code := 200; content_length := Some 5; body_parts := png_body |}
  else if String.eqb url "https://example.com/file" then
    Some {| status_code := 200; content_length := None; body_parts := [[x2a]] |}
  else if String.eqb url "http://bad-host/x.png" then
    Some {| status_code := 404; content_length := None; body_parts := [] |}
  else None.

Definition env : Env :=
  {| getcwd := "/work";
     gettempdir := "/tmp";
     realpath := normpath "/work";
     requests_get := net;
     random_name := names;
     set_order := first_seen;
     is_audio := ext_is_audio;
     is_image := ext_is_image;
     is_video := ext_is_video;
     get_file_size := stat_size (normpath "/work") |}.

(** Regular files: one in the working directory, one in the temp
    directory, one in a directory whose name merely starts like the temp
    directory's, one in a download folder, one elsewhere. *)
Definition disk : gmap string (list byte) :=
  <["/work/a.jpg" := [x01]]>
  (<["/tmp/local_dog.jpg" := [x02; x03]]>
  (<["/tmpx/a.png" := [x04]]>
  (<["/downloads/shot.png" := [x08; x09]]>
  (<["/data/valid.png" := [x05; x06; x07]]> ∅)))).

Definition state : State :=
  {| files := disk; names_drawn := 0%nat; custom_temp_folder := None;
     target_path := None; source_paths := None |}.

(** The same, with [/downloads] chosen as download folder. *)
Definition state_with_folder : State :=
  {| files := disk; names_drawn := 0%nat; custom_temp_folder := Some "/downloads";
     target_path := None; source_paths := None |}.

(** The same world with another order a [set] may have: the last
    occurrence of each element stays in place. *)
Definition env_last_seen : Env :=
  {| getcwd := "/work";
     gettempdir := "/tmp";
     realpath := normpath "/work";
     requests_get := net;
     random_name := names;
     set_order := remove_dups;
     is_audio := ext_is_audio;
     is_image := ext_is_image;
     is_video := ext_is_video;
     get_file_size := stat_size (normpath "/work") |}.

(** A world in which every file is reported to have the given size. *)
Definition env_sized (size : Z) : Env :=
  {| getcwd := "/work";
     gettempdir := "/tmp";
     realpath := normpath "/work";
     requests_get := net;
     random_name := names;
     set_order := first_seen;
     is_audio := ext_is_audio;
     is_image := ext_is_image;
     is_video := ext_is_video;
     get_file_size := fun _ _ => size |}.



End Demo.

(** * Properties *)

(** ** The filesystem primitives *)

Section FsFacts.
Context (e : Env).

Lemma isfile_read (s : State) (p : string) :
  Fs.isfile e s p = true <-> is_Some (Fs.read e s p).
Proof.
  unfold Fs.isfile. destruct (Fs.read e s p); split; intros H; eauto;
    try discriminate. destruct H; discriminate.
Qed.


Lemma read_create_same (s : State) (p : string) :
  Fs.read e (Fs.create e p s) p = Some [].
Proof. unfold Fs.read, Fs.create. simpl. apply lookup_insert_eq. Qed.

Lemma read_create_other (s : State) (p q : string) :
  realpath e q <> realpath e p ->
  Fs.read e (Fs.create e p s) q = Fs.read e s q.
Proof.
  intros H. unfold Fs.read, Fs.create. simpl.
  apply lookup_insert_ne. congruence.
Qed.

Lemma read_append_same (s : State) (p : string) (data : list byte) :
  Fs.read e (Fs.append e p data s) p = Some (default [] (Fs.read e s p) ++ data).
Proof. unfold Fs.read, Fs.append. simpl. apply lookup_insert_eq. Qed.

Lemma read_append_other (s : State) (p q : string) (data : list byte) :
  realpath e q <> realpath e p ->
  Fs.read e (Fs.append e p data s) q = Fs.read e s q.
Proof.
  intros H. unfold Fs.read, Fs.append. simpl.
  apply lookup_insert_ne. congruence.
Qed.

(** What [shutil.copy2] does in each of its three cases. *)
Lemma copy2_cases (src dst : string) (s : State) :
  match Fs.read e s src with
  | None => Fs.copy2 e src dst s = (s, Raise FileNotFoundError)
  | Some data =>
      if decide (realpath e src = realpath e dst)
      then Fs.copy2 e src dst s = (s, Raise SameFileError)
      else exists s',
          Fs.copy2 e src dst s = (s', Ok tt) /\
          Fs.read e s' dst = Some data /\
          forall q, realpath e q <> realpath e dst -> Fs.read e s' q = Fs.read e s q
  end.
Proof.
  unfold Fs.copy2. destruct (Fs.read e s src) as [data|] eqn:Hsrc; [|reflexivity].
  destruct (decide (realpath e src = realpath e dst)) as [Heq|Hne].
  - rewrite (proj2 (String.eqb_eq _ _) Heq). reflexivity.
  - rewrite (proj2 (String.eqb_neq _ _) Hne). eexists. split; [reflexivity|].
    split.
    + unfold Fs.read. simpl. apply lookup_insert_eq.
    + intros q Hq. unfold Fs.read. simpl. apply lookup_insert_ne. congruence.
Qed.


End FsFacts.

(** ** Classification of a reference *)


Example classify_remote :
  Source.classify Demo.env Demo.state "HTTPS://example.com/cat.png" = Source.Remote.
Proof. reflexivity. Qed.

Example classify_existing :
  Source.classify Demo.env Demo.state "./a.jpg" = Source.LocalExisting.
Proof. vm_compute. reflexivity. Qed.

Example classify_missing :
  Source.classify Demo.env Demo.state "missing.jpg" = Source.LocalMissing.
Proof. vm_compute. reflexivity. Qed.

(** ** The size threshold *)

(** C6. A file counts as oversized exactly when its size is strictly greater
    than 512 MiB, that is 512 * 1024 * 1024 = 536870912 bytes: one byte more
    is oversized, exactly 512 MiB is not. For a video, [update] shows the
    first frame only exactly when the file is oversized, and the video itself
    otherwise. *)
Theorem C6_oversized_threshold (e : Env) (s : State) (local_path : string) :
  Target.FILE_SIZE_LIMIT = 536870912 /\
  (Target.oversized e s local_path = true <->
   get_file_size e s local_path > 512 * 1024 * 1024) /\
  (get_file_size e s local_path = 512 * 1024 * 1024 + 1 ->
   Target.oversized e s local_path = true) /\
  (get_file_size e s local_path = 512 * 1024 * 1024 ->
   Target.oversized e s local_path = false) /\
  (is_image e s local_path = false -> is_video e s local_path = true ->
   let s1 := set_target_path (Some local_path) s in
   Target.present e local_path s =
     (if Target.oversized e s1 local_path
      then {| Target.image_value := Some (Target.FirstFrame local_path);
              Target.video_value := None; Target.info := Target.VideoTooLarge |}
      else {| Target.image_value := None;
              Target.video_value := Some local_path; Target.info := Target.VideoLoaded |},
      s1)).
Proof.
  unfold Target.oversized, Target.FILE_SIZE_LIMIT.
  split; [reflexivity|]. split; [rewrite Z.ltb_lt; lia|].
  split; [intros ->; reflexivity|]. split; [intros ->; reflexivity|].
  intros Hi Hv. unfold Target.present. rewrite Hi, Hv.
  unfold Target.oversized, Target.FILE_SIZE_LIMIT.
  destruct (_ <? _); reflexivity.
Qed.

(** ** Upload before text *)


(** ** The containment guard *)

Section Guard.
Context (e : Env).




Lemma is_in_allowed_dir_same (path : string) :
  Target.is_in_allowed_dir e path = Source.is_in_allowed_dirs e path.
Proof.
  unfold Target.is_in_allowed_dir, Source.is_in_allowed_dirs.
  destruct (_ || _); reflexivity.
Qed.

Lemma ensure_in_allowed_dir_file (filepath : string) (s : State) :
  Fs.isfile e s filepath = true ->
  Target.ensure_in_allowed_dir e filepath s = Source.ensure_in_temp e filepath s.
Proof.
  intros H. unfold Target.ensure_in_allowed_dir, Source.ensure_in_temp.
  rewrite H, is_in_allowed_dir_same. simpl.
  destruct (Source.is_in_allowed_dirs e filepath); reflexivity.
Qed.



Lemma ensure_in_temp_outside (filepath : string) (s : State) :
  Fs.isfile e s filepath = true ->
  Source.is_in_allowed_dirs e filepath = false ->
  Spec.copied_to_temp e s filepath (Source.ensure_in_temp e filepath s).
Proof.
  intros Hf H. unfold Spec.copied_to_temp, Source.ensure_in_temp.
  rewrite H. unfold bind, ret.
  pose proof (copy2_cases e filepath
                (PosixPath.join (gettempdir e) (PosixPath.basename filepath)) s) as C.
  apply isfile_read in Hf. destruct Hf as [data Hd]. rewrite Hd in C.
  destruct (decide _) as [Heq|Hne].
  - rewrite C. reflexivity.
  - destruct C as (s' & E & Hnew & Hframe). rewrite E.
    exists s'. split; [reflexivity|]. split; [congruence|exact Hframe].
Qed.


End Guard.


(** ** Temp files and downloads *)

Section Fetch.
Context (e : Env).

(** What a successful [_mkstemp_inner] has done: the file it names was
    not there, is there now and is empty, and no other file changed. *)
Lemma mkstemp_inner_ok (fuel : nat) (dir pre suf : string) :
  forall (s s' : State) (file : string),
    Tempfile.mkstemp_inner e fuel dir pre suf s = (s', Ok file) ->
    (exists n, (names_drawn s <= n)%nat /\
               file = PosixPath.join dir (pre +:+ random_name e n +:+ suf)) /\
    Fs.isfile e s file = false /\
    Fs.read e s' file = Some [] /\
    (forall q, realpath e q <> realpath e file -> Fs.read e s' q = Fs.read e s q) /\
    custom_temp_folder s' = custom_temp_folder s.
Proof.
  induction fuel as [|fuel IH]; intros s s' file H; simpl in H; [discriminate|].
  destruct (Fs.isfile e (set_names_drawn (S (names_drawn s)) s) _) eqn:E.
  - apply IH in H. destruct H as ((n & Hn & Hfile) & Hfree & Hnew & Hframe & Hc).
    simpl in Hn. split; [exists n; split; [lia|exact Hfile]|].
    repeat split; assumption.
  - injection H as <- <-. split; [exists (names_drawn s); split; [lia|reflexivity]|].
    split; [exact E|]. split; [apply read_create_same|].
    split; [|reflexivity]. intros q Hq. rewrite read_create_other by exact Hq.
    reflexivity.
Qed.

(** A free candidate is taken at once. *)
Lemma mkstemp_inner_free (fuel : nat) (dir pre suf : string) (s : State) :
  let file := PosixPath.join dir (pre +:+ random_name e (names_drawn s) +:+ suf) in
  Fs.isfile e s file = false ->
  Tempfile.mkstemp_inner e (S fuel) dir pre suf s =
    (Fs.create e file (set_names_drawn (S (names_drawn s)) s), Ok file).
Proof.
  intros file H. simpl. fold file.
  replace (Fs.isfile e (set_names_drawn (S (names_drawn s)) s) file)
    with (Fs.isfile e s file) by reflexivity.
  rewrite H. reflexivity.
Qed.


Lemma cut_concat (n fuel : nat) :
  forall piece : list byte, concat (Requests.cut fuel n piece) = piece.
Proof.
  induction fuel as [|fuel IH]; intros piece; simpl.
  - apply app_nil_r.
  - destruct (Nat.leb (length piece) n); simpl.
    + apply app_nil_r.
    + rewrite IH. apply take_drop.
Qed.


Lemma iter_content_concat (n : Z) (r : Response) :
  concat (Requests.iter_content n r) = Requests.content r.
Proof.
  unfold Requests.iter_content, Requests.content.
  induction (body_parts r) as [|piece rest IH]; simpl; [reflexivity|].
  rewrite concat_app, cut_concat, IH. reflexivity.
Qed.

Lemma nonempty_concat (chunks : list (list byte)) :
  concat (Spec.nonempty chunks) = concat chunks.
Proof.
  induction chunks as [|c rest IH]; simpl; [reflexivity|].
  destruct c as [|b c]; simpl; [exact IH|]. rewrite IH. reflexivity.
Qed.


End Fetch.

Section Stream.
Context (e : Env).

(** The loop of [download_in_chunks], run to its end: one progress value
    per chunk that carries data, with the running byte count, then the
    final path; the file has grown by the chunks and no other file has
    changed. *)
Lemma drain_write_chunks (tmp_path : string) (total : Z) (chunks : list (list byte)) :
  forall (downloaded : Z) (s : State) (data : list byte),
    Fs.read e s tmp_path = Some data ->
    exists s',
      drain (Target.write_chunks e tmp_path total chunks downloaded s) =
        (List.map (fun d => Target.Progress d total tmp_path)
                  (Spec.running_totals downloaded (Spec.nonempty chunks))
           ++ [Target.FinalPath tmp_path], s', Ok tt) /\
      Fs.read e s' tmp_path = Some (data ++ concat chunks) /\
      (forall q, realpath e q <> realpath e tmp_path ->
                 Fs.read e s' q = Fs.read e s q).
Proof.
  induction chunks as [|chunk rest IH]; intros downloaded s data Hd.
  - exists s. simpl. rewrite app_nil_r. auto.
  - destruct chunk as [|b chunk].
    + simpl. apply IH. exact Hd.
    + set (c := b :: chunk).
      destruct (IH (downloaded + Z.of_nat (length c))
                   (Fs.append e tmp_path c s) (data ++ c)) as (s' & E & Hr & Hf).
      { rewrite read_append_same, Hd. reflexivity. }
      exists s'. split; [|split].
      * change (Target.write_chunks e tmp_path total (c :: rest) downloaded s)
          with (GYield (Target.Progress (downloaded + Z.of_nat (length c)) total tmp_path)
                       (Fs.append e tmp_path c s)
                       (Target.write_chunks e tmp_path total rest
                          (downloaded + Z.of_nat (length c)))).
        cbn [drain]. rewrite E. reflexivity.
      * rewrite Hr. simpl concat. rewrite <- app_assoc. reflexivity.
      * intros q Hq. rewrite Hf by exact Hq. apply read_append_other, Hq.
Qed.

Lemma running_totals_bounds (chunks : list (list byte)) :
  forall start : Z,
    Forall (fun d => start <= d <= start + Z.of_nat (length (concat chunks)))
           (Spec.running_totals start chunks).
Proof.
  induction chunks as [|c rest IH]; intros start; simpl; [constructor|].
  rewrite length_app. constructor; [lia|].
  eapply Forall_impl; [apply IH|]. intros d Hd. simpl in Hd. lia.
Qed.

Lemma running_totals_sorted (chunks : list (list byte)) :
  forall start : Z, StronglySorted Z.le (Spec.running_totals start chunks).
Proof.
  induction chunks as [|c rest IH]; intros start; simpl; constructor.
  - apply IH.
  - eapply Forall_impl; [apply running_totals_bounds|].
    intros d Hd. simpl in Hd. lia.
Qed.

Lemma downloaded_values_events (total : Z) (tmp_path : string) (ds : list Z) :
  Spec.downloaded_values
    (List.map (fun d => Target.Progress d total tmp_path) ds
       ++ [Target.FinalPath tmp_path]) = ds.
Proof.
  unfold Spec.downloaded_values.
  induction ds as [|d ds IH]; simpl; [reflexivity|]. rewrite IH. reflexivity.
Qed.

(** The whole generator on a fetch that succeeds. *)
Lemma download_in_chunks_run (url : string) (s s1 : State) (r : Response)
    (tmp_path : string) :
  Spec.fetch_succeeds e url r ->
  Tempfile.NamedTemporaryFile e (Spec.suffix_for url)
    (Target.download_folder e s) s = (s1, Ok tmp_path) ->
  exists s',
    drain (Target.download_in_chunks e url s) =
      (List.map (fun d => Target.Progress d (default 0 (content_length r)) tmp_path)
                (Spec.running_totals 0
                   (Spec.nonempty (Requests.iter_content (1024 * 256) r)))
         ++ [Target.FinalPath tmp_path], s', Ok tt) /\
    Fs.read e s' tmp_path = Some (Requests.content r) /\
    (forall q, realpath e q <> realpath e tmp_path -> Fs.read e s' q = Fs.read e s q).
Proof.
  intros [Hget Hstatus] Htmp.
  unfold Target.download_in_chunks, Requests.get, Requests.raise_for_status, bind.
  rewrite Hget. unfold ret at 1.
  assert (Hs : (400 <=? status_code r) && (status_code r <? 600) = false).
  { destruct (400 <=? status_code r) eqn:A; [|reflexivity].
    destruct (status_code r <? 600) eqn:B; [|reflexivity].
    exfalso. apply Hstatus. apply Z.leb_le in A. apply Z.ltb_lt in B. lia. }
  rewrite Hs. unfold ret.
  assert (Hext : (if Py.truthy (snd (PosixPath.splitext url))
                  then snd (PosixPath.splitext url) else ".tmp")
                 = Spec.suffix_for url).
  { unfold Spec.suffix_for. destruct (snd (PosixPath.splitext url)); reflexivity. }
  rewrite Hext, Htmp.
  unfold Tempfile.NamedTemporaryFile in Htmp.
  apply mkstemp_inner_ok in Htmp. destruct Htmp as (_ & _ & Hnew & Hframe & _).
  destruct (drain_write_chunks tmp_path (default 0 (content_length r))
              (Requests.iter_content Target.chunk_size r) 0 s1 [] Hnew)
    as (s' & E & Hr & Hf).
  exists s'. split; [|split].
  - replace (match content_length r with Some n => n | None => 0 end)
      with (default 0 (content_length r)) by (destruct (content_length r); reflexivity).
    exact E.
  - rewrite Hr. simpl. rewrite iter_content_concat. reflexivity.
  - intros q Hq. rewrite Hf by exact Hq. apply Hframe, Hq.
Qed.

End Stream.

(** ** The event sequence of a fetch *)


(** C5. On a fetch that succeeds for a resource of [N] bytes whose length
    the server announced, the [downloaded] values of the progress events
    never decrease, none exceeds [N], every event carries [N] as its total,
    and the file at the final path holds exactly [N] bytes: the body. *)
Theorem C5_downloaded_monotone (e : Env) (url : string) (s s1 : State)
    (r : Response) (tmp_path : string) (N : Z) :
  Spec.fetch_succeeds e url r ->
  Tempfile.NamedTemporaryFile e (Spec.suffix_for url)
    (Target.download_folder e s) s = (s1, Ok tmp_path) ->
  content_length r = Some N ->
  Z.of_nat (length (Requests.content r)) = N ->
  exists (parts : list Target.Part) (s' : State),
    drain (Target.download_in_chunks e url s) = (parts, s', Ok tt) /\
    StronglySorted Z.le (Spec.downloaded_values parts) /\
    Forall (fun d => 0 <= d <= N) (Spec.downloaded_values parts) /\
    Forall (fun part => match part with
                        | Target.Progress _ total _ => total = N
                        | Target.FinalPath path => path = tmp_path
                        end) parts /\
    Fs.read e s' tmp_path = Some (Requests.content r) /\
    (forall data, Fs.read e s' tmp_path = Some data -> Z.of_nat (length data) = N).
Proof.
  intros Hfetch Htmp Hlen HN.
  destruct (download_in_chunks_run e url s s1 r tmp_path Hfetch Htmp)
    as (s' & E & Hr & _).
  eexists. exists s'. split; [exact E|].
  rewrite downloaded_values_events, Hlen. simpl default.
  split; [apply running_totals_sorted|]. split; [|split; [|split]].
  - pose proof (running_totals_bounds
                  (Spec.nonempty (Requests.iter_content (1024 * 256) r)) 0) as B.
    rewrite nonempty_concat, iter_content_concat, HN in B. exact B.
  - apply Forall_app. split.
    + apply Forall_forall. intros part Hp. apply list_elem_of_In in Hp.
      apply in_map_iff in Hp. destruct Hp as (d & <- & _). reflexivity.
    + constructor; [reflexivity|constructor].
  - exact Hr.
  - intros data Hd. rewrite Hr in Hd. injection Hd as <-. exact HN.
Qed.

(** ** The name of the temp file *)

Section Naming.
Context (e : Env).

Lemma suffix_for_ext (url : string) :
  (if Py.truthy (snd (PosixPath.splitext url))
   then snd (PosixPath.splitext url) else ".tmp") = Spec.suffix_for url.
Proof. unfold Spec.suffix_for. destruct (snd (PosixPath.splitext url)); reflexivity. Qed.

(** The name [NamedTemporaryFile] hands out for a URL. *)
Lemma named_temporary_file_name (url dir : string) (s s' : State) (path : string) :
  Tempfile.NamedTemporaryFile e (Spec.suffix_for url) dir s = (s', Ok path) ->
  (exists token,
      path = PosixPath.join dir (Spec.temp_file_name ("tmp" +:+ token) url)) /\
  Fs.isfile e s path = false /\
  Fs.read e s' path = Some [] /\
  (forall q, realpath e q <> realpath e path -> Fs.read e s' q = Fs.read e s q).
Proof.
  intros H. apply mkstemp_inner_ok in H.
  destruct H as ((n & _ & Hname) & Hfree & Hnew & Hframe & _).
  split; [|auto]. exists (random_name e n). rewrite Hname. reflexivity.
Qed.

(** A run of [download_file] that returns has got a response without an
    error status and has written the whole body to its temp file. *)
Lemma download_file_ok (url : string) (s s' : State) (path : string) :
  Source.download_file e url s = (s', Ok path) ->
  exists (s1 : State) (r : Response),
    Spec.fetch_succeeds e url r /\
    Tempfile.NamedTemporaryFile e (Spec.suffix_for url) (gettempdir e) s
      = (s1, Ok path) /\
    s' = Fs.append e path (Requests.content r) s1.
Proof.
  unfold Source.download_file. rewrite suffix_for_ext. unfold bind at 1.
  destruct (Tempfile.NamedTemporaryFile e _ _ s) as [s1 [tmp|ex]] eqn:T;
    [|discriminate].
  unfold Requests.get, bind at 1.
  destruct (requests_get e url) as [r|] eqn:G; [|discriminate].
  unfold ret at 1. unfold Requests.raise_for_status, bind at 1.
  destruct ((400 <=? status_code r) && (status_code r <? 600)) eqn:St;
    [discriminate|].
  unfold ret at 1. unfold bind, ret. intros H. injection H as <- <-.
  exists s1, r. split; [|auto]. split; [exact G|].
  intros [A B]. apply Z.leb_le in A. apply Z.ltb_lt in B.
  rewrite A, B in St. discriminate.
Qed.

(** A run of [download_in_chunks] that ends without an exception has got a
    response without an error status and a temp file. *)
Lemma download_in_chunks_ok (url : string) (s s' : State) (parts : list Target.Part) :
  drain (Target.download_in_chunks e url s) = (parts, s', Ok tt) ->
  exists (s1 : State) (r : Response) (path : string),
    Spec.fetch_succeeds e url r /\
    Tempfile.NamedTemporaryFile e (Spec.suffix_for url) (Target.download_folder e s) s
      = (s1, Ok path).
Proof.
  unfold Target.download_in_chunks. rewrite suffix_for_ext.
  unfold Requests.get, bind at 1.
  destruct (requests_get e url) as [r|] eqn:G; [|discriminate].
  unfold ret at 1. unfold Requests.raise_for_status, bind.
  destruct ((400 <=? status_code r) && (status_code r <? 600)) eqn:St;
    [discriminate|].
  unfold ret.
  destruct (Tempfile.NamedTemporaryFile e _ _ s) as [s1 [tmp|ex]] eqn:T;
    [|discriminate].
  intros _. exists s1, r, tmp. split; [|reflexivity]. split; [exact G|].
  intros [A B]. apply Z.leb_le in A. apply Z.ltb_lt in B.
  rewrite A, B in St. discriminate.
Qed.

End Naming.


(** ** The batch *)

Section Batch.
Context (e : Env).

(** A reference that is neither a URL nor an existing file is skipped:
    no entry, no exception, no change of state. *)
Lemma process_all_missing (p : string) (rest acc : list string) (s : State) :
  Source.classify e s p = Source.LocalMissing ->
  Source.process_all e (p :: rest) acc s = Source.process_all e rest acc s.
Proof.
  unfold Source.classify. intros H. simpl.
  unfold bind at 1. unfold Source.process_path.
  destruct (Source.is_url p); [discriminate|].
  destruct (Source.is_valid_local_file e s p); [discriminate|]. reflexivity.
Qed.

(** The loop over a list in two parts is the loop over the first part
    followed by the loop over the second. *)
Lemma process_all_app (before after : list string) :
  forall (acc : list string) (s : State),
    Source.process_all e (before ++ after) acc s =
      match Source.process_all e before acc s with
      | (s1, Ok acc1) => Source.process_all e after acc1 s1
      | (s1, Raise ex) => (s1, Raise ex)
      end.
Proof.
  induction before as [|p before IH]; intros acc s; [reflexivity|].
  simpl. unfold bind at 1 3.
  destruct (Source.process_path e p s) as [s1 [[lp|]|ex]]; [| |reflexivity].
  - destruct (Py.truthy lp); [|apply IH].
    unfold bind. destruct (Source.ensure_in_temp e lp s1) as [s2 [safe|ex]];
      [apply IH|reflexivity].
  - apply IH.
Qed.

(** When the fetch of a URL fails, [download_file] raises. *)
Lemma download_file_fails (url : string) (s : State) :
  Spec.fetch_fails e url ->
  exists s' ex, Source.download_file e url s = (s', Raise ex).
Proof.
  unfold Spec.fetch_fails, Source.download_file. intros H. unfold bind at 1.
  destruct (Tempfile.NamedTemporaryFile e _ _ s) as [s1 [tmp|ex]]; [|eauto].
  unfold Requests.get, bind at 1.
  destruct (requests_get e url) as [r|]; [|unfold raise; eauto].
  unfold ret at 1. unfold Requests.raise_for_status, bind at 1.
  destruct H as [A B]. apply Z.leb_le in A. apply Z.ltb_lt in B.
  rewrite A, B. simpl. unfold raise. eauto.
Qed.

(** A URL whose fetch fails anywhere in the list makes the loop raise. *)
Lemma process_all_fails (url : string) (paths : list string) :
  url ∈ paths -> Source.is_url url = true -> Spec.fetch_fails e url ->
  forall (acc : list string) (s : State),
  exists s' ex, Source.process_all e paths acc s = (s', Raise ex).
Proof.
  intros Hin Hurl Hfail.
  induction paths as [|p rest IH]; intros acc s.
  - apply elem_of_nil in Hin. destruct Hin.
  - simpl. unfold bind at 1.
    apply elem_of_cons in Hin. destruct Hin as [<-|Hin].
    + unfold Source.process_path. rewrite Hurl. unfold bind at 1.
      destruct (download_file_fails url s Hfail) as (s' & ex & ->). eauto.
    + destruct (Source.process_path e p s) as [s1 [[lp|]|ex]]; [| |eauto].
      * destruct (Py.truthy lp); [|apply IH, Hin].
        unfold bind.
        destruct (Source.ensure_in_temp e lp s1) as [s2 [safe|ex]];
          [apply IH, Hin|eauto].
      * apply IH, Hin.
Qed.

Lemma update_raises (text_str : string) (files : list (option File))
    (s s' : State) (ex : Exn) :
  Source.update_processed_paths e text_str files s = (s', Raise ex) ->
  Source.update e text_str files s = (s', Raise ex).
Proof. intros H. unfold Source.update, bind. rewrite H. reflexivity. Qed.




End Batch.

(** The order of the concrete world is an order a [set] may have. *)
Lemma first_seen_ok : set_order_ok Demo.env.
Proof.
  intros xs. simpl. unfold Demo.first_seen. split.
  - rewrite reverse_Permutation. apply NoDup_remove_dups.
  - intros x. rewrite elem_of_reverse, elem_of_remove_dups, elem_of_reverse.
    reflexivity.
Qed.

(** C2, as the code has it. In the batch flow a reference that is neither a
    URL nor an existing file is dropped silently wherever it stands: the
    batch runs as if it were not there. A URL whose fetch fails (no answer,
    or an error status) is not dropped: the exception leaves [update], and
    the batch returns nothing, whatever the other references are. *)
Theorem C2_missing_dropped_failed_fetch_raises (e : Env) :
  (forall (before after acc acc1 : list string) (p : string) (s s1 : State),
      Source.process_all e before acc s = (s1, Ok acc1) ->
      Source.classify e s1 p = Source.LocalMissing ->
      Source.process_all e (before ++ p :: after) acc s =
      Source.process_all e (before ++ after) acc s) /\
  (set_order_ok e ->
   forall (text_str : string) (files : list (option File)) (url : string) (s : State),
     url ∈ Source.textbox_paths text_str ++ Source.file_paths files ->
     Source.is_url url = true ->
     Spec.fetch_fails e url ->
     exists s' ex, Source.update e text_str files s = (s', Raise ex)).
Proof.
  split.
  - intros before after acc acc1 p s s1 Hb Hp.
    rewrite !process_all_app, Hb. apply process_all_missing, Hp.
  - intros Hset text_str files url s Hin Hurl Hfail.
    destruct (process_all_fails e url (Source.all_raw_paths e text_str files))
      with (acc := @nil string) (s := s) as (s' & ex & E); try assumption.
    + apply (Hset _), Hin.
    + exists s', ex. apply update_raises. exact E.
Qed.


(** ** The concrete world at work *)

(** C1, at a file whose directory name merely starts like the temp
    directory's. [/tmpx/a.png] is an existing file that lies under none of
    the allowed roots, yet both flows return it as it is: the check compares
    the resolved strings with [startswith], and [/tmpx/a.png] starts with
    [/tmp]. *)
Theorem C1_returned_path_outside_roots :
  Fs.isfile Demo.env Demo.state "/tmpx/a.png" = true /\
  Spec.contained Demo.env (custom_temp_folder Demo.state) "/tmpx/a.png" = false /\
  Source.is_in_allowed_dirs Demo.env "/tmpx/a.png" = true /\
  Source.update_processed_paths Demo.env "/tmpx/a.png" [] Demo.state
    = (Demo.state, Ok ["/tmpx/a.png"]) /\
  Target.update Demo.env "/tmpx/a.png" None Demo.state
    = ([{| Target.image_value := Some (Target.ImagePath "/tmpx/a.png");
           Target.video_value := None; Target.info := Target.ImageLoaded |}],
       set_target_path (Some "/tmpx/a.png") Demo.state, Ok tt).
Proof. repeat split; vm_compute; reflexivity. Qed.

(** C2 fails where a fetch fails: with an existing file, a URL that answers
    404 and a missing file in one batch, [update] raises the HTTP error and
    stores no path, instead of returning the entry of the existing file. *)
Lemma C2_failed_fetch_aborts_batch :
  let text := "/work/a.jpg, http://bad-host/x.png, missing.jpg" in
  Source.textbox_paths text = ["/work/a.jpg"; "http://bad-host/x.png"; "missing.jpg"] /\
  Source.classify Demo.env Demo.state "/work/a.jpg" = Source.LocalExisting /\
  Source.classify Demo.env Demo.state "http://bad-host/x.png" = Source.Remote /\
  Spec.fetch_fails Demo.env "http://bad-host/x.png" /\
  snd (Source.update Demo.env text [] Demo.state) = Raise (HTTPError 404) /\
  source_paths (fst (Source.update Demo.env text [] Demo.state)) = None.
Proof.
  cbv zeta. split; [reflexivity|]. split; [vm_compute; reflexivity|].
  split; [reflexivity|]. split; [change (400 <= 404 < 600); lia|].
  split; vm_compute; reflexivity.
Qed.

Lemma C2_witness :
  set_order_ok Demo.env /\
  Source.is_url "http://bad-host/x.png" = true /\
  Spec.fetch_fails Demo.env "http://bad-host/x.png" /\
  (exists s' ex,
      Source.update Demo.env "/work/a.jpg, http://bad-host/x.png" [] Demo.state
        = (s', Raise ex)) /\
  Source.process_all Demo.env ["/work/a.jpg"] [] Demo.state
    = (Demo.state, Ok ["/work/a.jpg"]) /\
  Source.classify Demo.env Demo.state "missing.jpg" = Source.LocalMissing /\
  Source.process_all Demo.env (["/work/a.jpg"] ++ "missing.jpg" :: ["/tmp/local_dog.jpg"])
    [] Demo.state
    = Source.process_all Demo.env (["/work/a.jpg"] ++ ["/tmp/local_dog.jpg"]) [] Demo.state.
Proof.
  assert (Hfail : Spec.fetch_fails Demo.env "http://bad-host/x.png")
    by (change (400 <= 404 < 600); lia).
  assert (Hbefore : Source.process_all Demo.env ["/work/a.jpg"] [] Demo.state
                    = (Demo.state, Ok ["/work/a.jpg"])) by (vm_compute; reflexivity).
  assert (Hmissing : Source.classify Demo.env Demo.state "missing.jpg"
                     = Source.LocalMissing) by (vm_compute; reflexivity).
  split; [exact first_seen_ok|]. split; [reflexivity|]. split; [exact Hfail|].
  split; [|split; [exact Hbefore|split; [exact Hmissing|]]].
  - apply (proj2 (C2_missing_dropped_failed_fetch_raises Demo.env) first_seen_ok
             "/work/a.jpg, http://bad-host/x.png" [] "http://bad-host/x.png" Demo.state).
    + apply list_elem_of_In. simpl. right. left. reflexivity.
    + reflexivity.
    + exact Hfail.
  - exact (proj1 (C2_missing_dropped_failed_fetch_raises Demo.env)
             ["/work/a.jpg"] ["/tmp/local_dog.jpg"] [] ["/work/a.jpg"] "missing.jpg"
             Demo.state Demo.state Hbefore Hmissing).
Defined.




Lemma C5_witness :
  let url := "https://example.com/cat.png" in
  let r := {| status_code := 200; content_length := Some 5;
              body_parts := Demo.png_body |} in
  let s1 := Fs.create Demo.env "/tmp/tmpf7.png" (set_names_drawn 1 Demo.state) in
  Spec.fetch_succeeds Demo.env url r /\
  Tempfile.NamedTemporaryFile Demo.env (Spec.suffix_for url)
    (Target.download_folder Demo.env Demo.state) Demo.state = (s1, Ok "/tmp/tmpf7.png") /\
  content_length r = Some 5 /\
  Z.of_nat (length (Requests.content r)) = 5 /\
  exists (parts : list Target.Part) (s' : State),
    drain (Target.download_in_chunks Demo.env url Demo.state) = (parts, s', Ok tt) /\
    StronglySorted Z.le (Spec.downloaded_values parts) /\
    Forall (fun d => 0 <= d <= 5) (Spec.downloaded_values parts) /\
    Forall (fun part => match part with
                        | Target.Progress _ total _ => total = 5
                        | Target.FinalPath path => path = "/tmp/tmpf7.png"
                        end) parts /\
    Fs.read Demo.env s' "/tmp/tmpf7.png" = Some (Requests.content r) /\
    (forall data, Fs.read Demo.env s' "/tmp/tmpf7.png" = Some data ->
                  Z.of_nat (length data) = 5).
Proof.
  intros url r s1.
  assert (Hfetch : Spec.fetch_succeeds Demo.env url r).
  { split; [reflexivity|]. simpl. lia. }
  assert (Htmp : Tempfile.NamedTemporaryFile Demo.env (Spec.suffix_for url)
                   (Target.download_folder Demo.env Demo.state) Demo.state
                 = (s1, Ok "/tmp/tmpf7.png")) by (vm_compute; reflexivity).
  split; [exact Hfetch|]. split; [exact Htmp|].
  split; [reflexivity|]. split; [reflexivity|].
  exact (C5_downloaded_monotone Demo.env url Demo.state s1 r "/tmp/tmpf7.png" 5
           Hfetch Htmp eq_refl eq_refl).
Defined.

Lemma C6_witness :
  let p := "/tmp/clip.mkv" in
  let over := Demo.env_sized (512 * 1024 * 1024 + 1) in
  let at_limit := Demo.env_sized (512 * 1024 * 1024) in
  Target.oversized over Demo.state p = true /\
  Target.oversized at_limit Demo.state p = false /\
  Target.info (fst (Target.present over p Demo.state)) = Target.VideoTooLarge /\
  Target.info (fst (Target.present at_limit p Demo.state)) = Target.VideoLoaded.
Proof.
  intros p over at_limit.
  destruct (C6_oversized_threshold over Demo.state p) as (_ & _ & Hover & _ & Hshow).
  destruct (C6_oversized_threshold at_limit Demo.state p) as (_ & _ & _ & Hat & Hshow').
  split; [apply Hover; reflexivity|]. split; [apply Hat; reflexivity|].
  split.
  - rewrite Hshow by (vm_compute; reflexivity). reflexivity.
  - rewrite Hshow' by (vm_compute; reflexivity). reflexivity.
Defined.





(** ** Further runs *)

Example lower_url : Py.lower "HTTPS://Example.COM/a.PNG" = "https://example.com/a.png".
Proof. reflexivity. Qed.

Example strip_spaces : Py.strip "  /tmp/a b.jpg  " = "/tmp/a b.jpg".
Proof. reflexivity. Qed.

Example split_commas : Py.split ","%char "a, b,,c" = ["a"; " b"; ""; "c"].
Proof. reflexivity. Qed.

Example textbox_paths_drops_blanks :
  Source.textbox_paths " a.jpg ,, ,./b.png" = ["a.jpg"; "./b.png"].
Proof. reflexivity. Qed.

Example basename_of_path : PosixPath.basename "/data/in/x.jpg" = "x.jpg".
Proof. reflexivity. Qed.

Example join_paths :
  PosixPath.join "/tmp" "x.jpg" = "/tmp/x.jpg" /\ PosixPath.join "/tmp/" "x.jpg" = "/tmp/x.jpg".
Proof. split; reflexivity. Qed.

Example splitext_runs :
  PosixPath.splitext "https://example.com/cat.png" = ("https://example.com/cat", ".png") /\
  PosixPath.splitext "https://example.com/file" = ("https://example.com/file", "") /\
  PosixPath.splitext "/a/.bashrc" = ("/a/.bashrc", "") /\
  PosixPath.splitext "https://example.com/cat.png?size=2" =
    ("https://example.com/cat", ".png?size=2").
Proof. repeat split; reflexivity. Qed.

Lemma take_drop_string (n : nat) (s : string) : Py.take n s +:+ Py.drop n s = s.
Proof.
  revert s. induction n as [|n IH]; intros [|c s]; try reflexivity.
  change (String c (Py.take n s +:+ Py.drop n s) = String c s).
  f_equal. apply IH.
Qed.

(** The two halves [os.path.splitext] returns make up the path. *)
Lemma splitext_app (p : string) :
  fst (PosixPath.splitext p) +:+ snd (PosixPath.splitext p) = p.
Proof.
  unfold PosixPath.splitext. destruct (_ && _); simpl.
  - apply take_drop_string.
  - induction p as [|c p IH]; [reflexivity|].
    change (String c (p +:+ "") = String c p). f_equal. exact IH.
Qed.

(** The scenario of the spec: a URL that serves an image and an existing
    local image give two entries, an image preview and no audio preview. *)
Example batch_of_url_and_local_file :
  let run := Source.update Demo.env
               "https://example.com/cat.png, /tmp/local_dog.jpg" [] Demo.state in
  snd run = Ok {| Source.audio_value := None;
                  Source.image_value := Some "/tmp/tmpf7.png" |} /\
  source_paths (fst run) = Some ["/tmp/tmpf7.png"; "/tmp/local_dog.jpg"].
Proof. split; vm_compute; reflexivity. Qed.

(** A missing local file is left out and the rest of the batch goes on; a
    file outside the allowed directories is copied to the temp directory. *)
Example batch_with_missing_and_outside :
  snd (Source.update_processed_paths Demo.env
         "missing.jpg, /data/valid.png, /work/a.jpg" [] Demo.state)
  = Ok ["/tmp/valid.png"; "/work/a.jpg"].
Proof. vm_compute. reflexivity. Qed.

(** The result follows the order of the set, not the order of the text. *)
Example batch_order_follows_set :
  snd (Source.update_processed_paths Demo.env
         "a.jpg, /tmp/local_dog.jpg, a.jpg" [] Demo.state)
  = Ok ["a.jpg"; "/tmp/local_dog.jpg"] /\
  snd (Source.update_processed_paths Demo.env_last_seen
         "a.jpg, /tmp/local_dog.jpg, a.jpg" [] Demo.state)
  = Ok ["/tmp/local_dog.jpg"; "a.jpg"].
Proof. split; vm_compute; reflexivity. Qed.

(** The single flow on a URL: two progress values, the completion, the
    image; the path is stored as target path. *)
Example single_flow_on_url :
  let '(shown, s', r) := Target.update Demo.env " https://example.com/cat.png " None
                           Demo.state in
  List.map Target.info shown =
    [Target.DownloadingPct 60; Target.DownloadingPct 100;
     Target.DownloadComplete; Target.ImageLoaded] /\
  target_path s' = Some "/tmp/tmpf7.png" /\ r = Ok tt.
Proof. vm_compute. repeat split; reflexivity. Qed.

(** The single flow on a URL that answers 404 raises before any value. *)
Example single_flow_on_failed_fetch :
  Target.update Demo.env "http://bad-host/x.png" None Demo.state
  = ([], Demo.state, Raise (HTTPError 404)).
Proof. vm_compute. reflexivity. Qed.

(** The single flow on a missing local file reports it and clears the
    target path. *)
Example single_flow_on_missing_file :
  Target.update Demo.env "missing.jpg" None Demo.state
  = ([Target.blank Target.InvalidOrMissing], set_target_path None Demo.state, Ok tt).
Proof. vm_compute. reflexivity. Qed.

Example media_kinds :
  Demo.ext_is_image Demo.state "photo.PNG" = true /\
  Demo.ext_is_video Demo.state "clip.mkv" = true /\
  Demo.ext_is_image Demo.state "notes.txt" = false /\
  Demo.ext_is_audio Demo.state "notes.txt" = false /\
  Demo.ext_is_video Demo.state "notes.txt" = false.
Proof. repeat split; reflexivity. Qed.

(** ** What the handlers leave alone *)

Section Frame.
Context (e : Env).

Lemma extends_refl (s : State) : Spec.extends e s s.
Proof. unfold Spec.extends. auto with arith. Qed.

Lemma extends_trans (s1 s2 s3 : State) :
  Spec.extends e s1 s2 -> Spec.extends e s2 s3 -> Spec.extends e s1 s3.
Proof.
  intros (F1 & C1 & T1 & P1 & N1) (F2 & C2 & T2 & P2 & N2).
  unfold Spec.extends. repeat split; try congruence; [auto|lia].
Qed.

(** Writing a file under some key keeps every file there is. *)
Lemma extends_insert (key : string) (data : list byte) (s : State) :
  Spec.extends e s (set_files (<[key := data]> (files s)) s).
Proof.
  unfold Spec.extends. repeat split; try reflexivity.
  intros q. unfold Fs.isfile, Fs.read. simpl.
  destruct (decide (key = realpath e q)) as [->|Hne].
  - rewrite lookup_insert_eq. reflexivity.
  - rewrite lookup_insert_ne by exact Hne. auto.
Qed.

Lemma extends_create (p : string) (s : State) : Spec.extends e s (Fs.create e p s).
Proof. apply extends_insert. Qed.

Lemma extends_append (p : string) (data : list byte) (s : State) :
  Spec.extends e s (Fs.append e p data s).
Proof. apply extends_insert. Qed.

Lemma extends_draw (s : State) :
  Spec.extends e s (set_names_drawn (S (names_drawn s)) s).
Proof. unfold Spec.extends. repeat split; auto. simpl. lia. Qed.

Lemma copy2_extends (src dst : string) (s s' : State) (r : Result unit) :
  Fs.copy2 e src dst s = (s', r) -> Spec.extends e s s'.
Proof.
  unfold Fs.copy2. destruct (Fs.read e s src) as [data|].
  - destruct (String.eqb _ _); intros H; injection H as <- _.
    + apply extends_refl.
    + apply extends_insert.
  - intros H. injection H as <- _. apply extends_refl.
Qed.

Lemma mkstemp_inner_extends (fuel : nat) (dir pre suf : string) :
  forall (s s' : State) (r : Result string),
    Tempfile.mkstemp_inner e fuel dir pre suf s = (s', r) -> Spec.extends e s s'.
Proof.
  induction fuel as [|fuel IH]; intros s s' r H; simpl in H.
  - injection H as <- _. apply extends_refl.
  - destruct (Fs.isfile e _ _).
    + eapply extends_trans; [apply extends_draw|]. eapply IH. exact H.
    + injection H as <- _.
      eapply extends_trans; [apply extends_draw|apply extends_create].
Qed.

Lemma download_file_extends (url : string) (s s' : State) (r : Result string) :
  Source.download_file e url s = (s', r) -> Spec.extends e s s'.
Proof.
  unfold Source.download_file. unfold bind at 1.
  destruct (Tempfile.NamedTemporaryFile e _ _ s) as [s1 [tmp|ex]] eqn:T;
    apply mkstemp_inner_extends in T.
  - unfold Requests.get, bind at 1.
    destruct (requests_get e url) as [resp|].
    + unfold ret at 1. unfold Requests.raise_for_status, bind at 1.
      destruct (_ && _).
      * unfold raise. intros H. injection H as <- _. exact T.
      * unfold ret at 1. unfold bind, ret. intros H. injection H as <- _.
        eapply extends_trans; [exact T|apply extends_append].
    + unfold raise. intros H. injection H as <- _. exact T.
  - intros H. injection H as <- _. exact T.
Qed.

Lemma process_path_extends (p : string) (s s' : State) (r : Result (option string)) :
  Source.process_path e p s = (s', r) -> Spec.extends e s s'.
Proof.
  unfold Source.process_path. destruct (Source.is_url p).
  - unfold bind, ret.
    destruct (Source.download_file e p s) as [s1 [local|ex]] eqn:D;
      apply download_file_extends in D; intros H; injection H as <- _; exact D.
  - destruct (Source.is_valid_local_file e s p); intros H; injection H as <- _;
      apply extends_refl.
Qed.

Lemma ensure_in_temp_extends (p : string) (s s' : State) (r : Result string) :
  Source.ensure_in_temp e p s = (s', r) -> Spec.extends e s s'.
Proof.
  unfold Source.ensure_in_temp. destruct (Source.is_in_allowed_dirs e p).
  - unfold ret. intros H. injection H as <- _. apply extends_refl.
  - unfold bind, ret. destruct (Fs.copy2 e p _ s) as [s1 [[]|ex]] eqn:C;
      apply copy2_extends in C; intros H; injection H as <- _; exact C.
Qed.

Lemma ensure_in_allowed_dir_extends (p : string) (s s' : State) (r : Result string) :
  Target.ensure_in_allowed_dir e p s = (s', r) -> Spec.extends e s s'.
Proof.
  unfold Target.ensure_in_allowed_dir. destruct (Fs.isfile e s p); simpl.
  - destruct (Target.is_in_allowed_dir e p).
    + intros H. injection H as <- _. apply extends_refl.
    + unfold bind, ret. destruct (Fs.copy2 e p _ s) as [s1 [[]|ex]] eqn:C;
        apply copy2_extends in C; intros H; injection H as <- _; exact C.
  - intros H. injection H as <- _. apply extends_refl.
Qed.

Lemma process_all_extends (paths : list string) :
  forall (acc : list string) (s s' : State) (r : Result (list string)),
    Source.process_all e paths acc s = (s', r) -> Spec.extends e s s'.
Proof.
  induction paths as [|p rest IH]; intros acc s s' r H; simpl in H.
  - unfold ret in H. injection H as <- _. apply extends_refl.
  - unfold bind at 1 in H.
    destruct (Source.process_path e p s) as [s1 [[lp|]|ex]] eqn:P;
      apply process_path_extends in P.
    + destruct (Py.truthy lp).
      * unfold bind in H.
        destruct (Source.ensure_in_temp e lp s1) as [s2 [safe|ex]] eqn:G;
          apply ensure_in_temp_extends in G.
        -- apply IH in H. eauto using extends_trans.
        -- injection H as <- _. eauto using extends_trans.
      * apply IH in H. eauto using extends_trans.
    + apply IH in H. eauto using extends_trans.
    + injection H as <- _. exact P.
Qed.

Lemma write_all_extends (tmp_path : string) (chunks : list (list byte)) :
  forall s : State, Spec.extends e s (Spec.write_all e tmp_path chunks s).
Proof.
  unfold Spec.write_all. induction (Spec.nonempty chunks) as [|c cs IH]; intros s; simpl.
  - apply extends_refl.
  - eapply extends_trans; [apply extends_append|apply IH].
Qed.

End Frame.

(** ** The single flow on a URL *)

Section Single.
Context (e : Env).

Lemma status_ok (r : Response) :
  ~ (400 <= status_code r < 600) ->
  (400 <=? status_code r) && (status_code r <? 600) = false.
Proof.
  intros H. destruct (400 <=? status_code r) eqn:A; [|reflexivity].
  destruct (status_code r <? 600) eqn:B; [|reflexivity].
  exfalso. apply H. apply Z.leb_le in A. apply Z.ltb_lt in B. lia.
Qed.

(** On a fetch that succeeds the generator is the loop over the chunks. *)
Lemma download_in_chunks_loop (url : string) (s s1 : State) (r : Response)
    (tmp_path : string) :
  Spec.fetch_succeeds e url r ->
  Tempfile.NamedTemporaryFile e (Spec.suffix_for url)
    (Target.download_folder e s) s = (s1, Ok tmp_path) ->
  Target.download_in_chunks e url s =
    Target.write_chunks e tmp_path (default 0 (content_length r))
      (Requests.iter_content Target.chunk_size r) 0 s1.
Proof.
  intros [Hget Hstatus] Htmp.
  unfold Target.download_in_chunks, Requests.get, Requests.raise_for_status, bind.
  rewrite Hget. unfold ret at 1. rewrite (status_ok r Hstatus). unfold ret.
  rewrite suffix_for_ext, Htmp. destruct (content_length r); reflexivity.
Qed.

(** On a fetch that fails the generator stops at once, in the state it
    started from. *)
Lemma download_in_chunks_stop (url : string) (s : State) :
  Spec.fetch_fails e url ->
  exists ex, Target.download_in_chunks e url s = GStop s (Raise ex) /\
             (ex = ConnectionError \/ exists status, ex = HTTPError status).
Proof.
  unfold Spec.fetch_fails, Target.download_in_chunks, Requests.get,
    Requests.raise_for_status, bind.
  destruct (requests_get e url) as [r|].
  - intros [A B]. apply Z.leb_le in A. apply Z.ltb_lt in B.
    unfold ret at 1. rewrite A, B. simpl. unfold raise. eauto.
  - intros _. unfold raise. eauto.
Qed.

(** The [for] loop of [update] over the loop of the generator: the
    progress values, then the guard on the finished file. *)
Lemma consume_write_chunks (tmp_path : string) (total : Z) (chunks : list (list byte)) :
  forall (downloaded : Z) (s : State) (local_path : option string),
    Target.consume e (Target.write_chunks e tmp_path total chunks downloaded s) local_path =
      let shown := List.map (Spec.progress_shown total)
                     (Spec.running_totals downloaded (Spec.nonempty chunks)) in
      match Target.ensure_in_allowed_dir e tmp_path (Spec.write_all e tmp_path chunks s) with
      | (s2, Raise ex) => (shown, s2, Raise ex)
      | (s2, Ok safe_path) =>
          (shown ++ [Target.blank Target.DownloadComplete], s2, Ok (Some safe_path))
      end.
Proof.
  induction chunks as [|chunk rest IH]; intros downloaded s local_path.
  - cbn. unfold Spec.write_all. cbn.
    destruct (Target.ensure_in_allowed_dir e tmp_path s) as [s2 [safe|ex]]; reflexivity.
  - destruct chunk as [|b chunk].
    + apply IH.
    + set (c := b :: chunk).
      change (Target.write_chunks e tmp_path total (c :: rest) downloaded s)
        with (GYield (Target.Progress (downloaded + Z.of_nat (length c)) total tmp_path)
                     (Fs.append e tmp_path c s)
                     (Target.write_chunks e tmp_path total rest
                        (downloaded + Z.of_nat (length c)))).
      cbn [Target.consume]. rewrite IH.
      change (Spec.write_all e tmp_path (c :: rest) s)
        with (Spec.write_all e tmp_path rest (Fs.append e tmp_path c s)).
      change (Spec.running_totals downloaded (Spec.nonempty (c :: rest)))
        with ((downloaded + Z.of_nat (length c))
                :: Spec.running_totals (downloaded + Z.of_nat (length c))
                     (Spec.nonempty rest)).
      cbv zeta.
      destruct (Target.ensure_in_allowed_dir e tmp_path _) as [s2 [safe|ex]];
        reflexivity.
Qed.

(** What the written file holds. *)
Lemma write_all_read (tmp_path : string) (chunks : list (list byte)) :
  forall (s : State) (data : list byte),
    Fs.read e s tmp_path = Some data ->
    Fs.read e (Spec.write_all e tmp_path chunks s) tmp_path = Some (data ++ concat chunks) /\
    forall q, realpath e q <> realpath e tmp_path ->
              Fs.read e (Spec.write_all e tmp_path chunks s) q = Fs.read e s q.
Proof.
  induction chunks as [|chunk rest IH]; intros s data Hd.
  - unfold Spec.write_all. simpl. rewrite app_nil_r. auto.
  - destruct chunk as [|b chunk].
    + apply IH. exact Hd.
    + set (c := b :: chunk).
      change (Spec.write_all e tmp_path (c :: rest) s)
        with (Spec.write_all e tmp_path rest (Fs.append e tmp_path c s)).
      destruct (IH (Fs.append e tmp_path c s) (data ++ c)) as [Hr Hf].
      { rewrite read_append_same, Hd. reflexivity. }
      split.
      * rewrite Hr. simpl concat. rewrite <- app_assoc. reflexivity.
      * intros q Hq. rewrite Hf by exact Hq. apply read_append_other, Hq.
Qed.

Lemma is_url_inline (raw : string) :
  Py.startswith (Py.lower raw) "http://" || Py.startswith (Py.lower raw) "https://"
  = Source.is_url raw.
Proof. reflexivity. Qed.

End Single.

(** ** Strings *)

Lemma lower_ascii_idempotent (c : ascii) :
  Py.lower_ascii (Py.lower_ascii c) = Py.lower_ascii c.
Proof. destruct c as [[] [] [] [] [] [] [] []]; reflexivity. Qed.

Lemma lower_idempotent (s : string) : Py.lower (Py.lower s) = Py.lower s.
Proof.
  induction s as [|c s IH]; [reflexivity|].
  simpl. rewrite lower_ascii_idempotent, IH. reflexivity.
Qed.

Lemma lower_app (a b : string) : Py.lower (a +:+ b) = Py.lower a +:+ Py.lower b.
Proof.
  induction a as [|c a IH]; [reflexivity|].
  change (String (Py.lower_ascii c) (Py.lower (a +:+ b))
          = String (Py.lower_ascii c) (Py.lower a +:+ Py.lower b)).
  f_equal. exact IH.
Qed.

Lemma prefix_app_r (p a b : string) :
  String.prefix p a = true -> String.prefix p (a +:+ b) = true.
Proof.
  revert a. induction p as [|c p IH]; intros a H.
  - destruct (a +:+ b); reflexivity.
  - destruct a as [|d a]; [discriminate|].
    change (String.prefix (String c p) (String d (a +:+ b)) = true).
    simpl in *. destruct (ascii_dec c d); [apply IH, H|discriminate].
Qed.

Lemma rstrip_cons (c : ascii) (s : string) :
  Py.rstrip (String c s) =
    match Py.rstrip s with
    | EmptyString => if Py.is_space c then EmptyString else String c EmptyString
    | r => String c r
    end.
Proof. reflexivity. Qed.

Lemma rstrip_idempotent (s : string) : Py.rstrip (Py.rstrip s) = Py.rstrip s.
Proof.
  induction s as [|c s IH]; [reflexivity|].
  rewrite rstrip_cons. destruct (Py.rstrip s) as [|d r] eqn:R.
  - destruct (Py.is_space c) eqn:Sp; [reflexivity|].
    rewrite rstrip_cons. simpl. rewrite Sp. reflexivity.
  - rewrite rstrip_cons, IH. reflexivity.
Qed.

(** What has no space in front keeps its front under [rstrip]. *)
Lemma lstrip_rstrip (s : string) :
  Py.lstrip s = s -> Py.lstrip (Py.rstrip s) = Py.rstrip s.
Proof.
  destruct s as [|c s]; [reflexivity|].
  simpl. destruct (Py.is_space c) eqn:Sp.
  - intros H. exfalso.
    assert (L : forall x, (String.length (Py.lstrip x) <= String.length x)%nat).
    { induction x as [|a x IHx]; simpl; [lia|].
      destruct (Py.is_space a); simpl; lia. }
    specialize (L s). rewrite H in L. simpl in L. lia.
  - intros _. destruct (Py.rstrip s); simpl; rewrite Sp; reflexivity.
Qed.

Lemma lstrip_idempotent (s : string) : Py.lstrip (Py.lstrip s) = Py.lstrip s.
Proof.
  induction s as [|c s IH]; [reflexivity|].
  simpl. destruct (Py.is_space c) eqn:Sp; [exact IH|]. simpl. rewrite Sp. reflexivity.
Qed.

(** [strip] has nothing left to do on what it returns. *)
Lemma strip_idempotent (s : string) : Py.strip (Py.strip s) = Py.strip s.
Proof.
  unfold Py.strip. rewrite (lstrip_rstrip (Py.lstrip s)) by apply lstrip_idempotent.
  apply rstrip_idempotent.
Qed.

Lemma has_comma_lstrip (s : string) :
  Spec.has_comma s = false -> Spec.has_comma (Py.lstrip s) = false.
Proof.
  induction s as [|c s IH]; [reflexivity|].
  simpl. intros H. apply orb_false_iff in H. destruct H as [Hc Hs].
  destruct (Py.is_space c); [apply IH, Hs|]. simpl. rewrite Hc, Hs. reflexivity.
Qed.

Lemma has_comma_rstrip (s : string) :
  Spec.has_comma s = false -> Spec.has_comma (Py.rstrip s) = false.
Proof.
  induction s as [|c s IH]; [reflexivity|].
  simpl. intros H. apply orb_false_iff in H. destruct H as [Hc Hs].
  specialize (IH Hs). destruct (Py.rstrip s) as [|d r].
  - destruct (Py.is_space c); [reflexivity|]. simpl. rewrite Hc. reflexivity.
  - change (Ascii.eqb c "," || Spec.has_comma (String d r) = false).
    rewrite Hc, IH. reflexivity.
Qed.

(** The fields [split] returns hold no separator. *)
Lemma split_no_comma (s : string) :
  Forall (fun w => Spec.has_comma w = false) (Py.split ","%char s).
Proof.
  induction s as [|c s IH]; simpl.
  - constructor; [reflexivity|constructor].
  - destruct (Ascii.eqb c ",") eqn:E.
    + constructor; [reflexivity|exact IH].
    + destruct (Py.split "," s) as [|w ws].
      * constructor; [simpl; rewrite E; reflexivity|constructor].
      * inversion IH as [|? ? Hw Hws]; subst.
        constructor; [simpl; rewrite E, Hw; reflexivity|exact Hws].
Qed.

(** A field without separator, followed by a separator, is split off. *)
Lemma split_field (p rest : string) :
  Spec.has_comma p = false ->
  Py.split ","%char (p +:+ String ","%char rest) = p :: Py.split ","%char rest.
Proof.
  induction p as [|c p IH]; intros H.
  - reflexivity.
  - simpl in H. apply orb_false_iff in H. destruct H as [Hc Hp].
    change (Py.split "," (String c (p +:+ String "," rest))
            = String c p :: Py.split "," rest).
    simpl. rewrite Hc, (IH Hp). reflexivity.
Qed.

Lemma split_single (p : string) :
  Spec.has_comma p = false -> Py.split ","%char p = [p].
Proof.
  induction p as [|c p IH]; intros H; [reflexivity|].
  simpl in H. apply orb_false_iff in H. destruct H as [Hc Hp].
  simpl. rewrite Hc, (IH Hp). reflexivity.
Qed.

(** Splitting what [", ".join] has joined: the first field as it was, the
    others with the space in front. *)
Lemma split_join (p : string) (rest : list string) :
  Forall (fun w => Spec.has_comma w = false) (p :: rest) ->
  Py.split ","%char (String.concat ", " (p :: rest))
  = p :: List.map (String " "%char) rest.
Proof.
  revert p. induction rest as [|q rest IH]; intros p H.
  - inversion H; subst. simpl. apply split_single. assumption.
  - inversion H as [|? ? Hp Hrest]; subst.
    change (String.concat ", " (p :: q :: rest))
      with (p +:+ String "," (String " " (String.concat ", " (q :: rest)))).
    rewrite split_field by exact Hp. f_equal.
    change (Py.split "," (String " " (String.concat ", " (q :: rest))))
      with (match Py.split "," (String.concat ", " (q :: rest)) with
            | [] => [String " "%char EmptyString]
            | w :: ws => String " "%char w :: ws
            end).
    rewrite (IH q Hrest). reflexivity.
Qed.

(** ** The download folder *)



(** ** Edge cases of the single flow *)

(** X2. With no usable upload and a text that is empty or all space,
    [update] yields the single value "No file or URL provided.", clears the
    target path and touches no file. *)
Theorem X2_update_without_input (e : Env) (text : string) (file : option File)
    (s : State) :
  Py.strip text = "" ->
  (file = None \/ exists f, file = Some f /\ name f = "") ->
  Target.update e text file s =
    ([Target.blank Target.NoInput], set_target_path None s, Ok tt).
Proof.
  intros Ht Hf. unfold Target.update.
  assert (R : Target.final_raw_path text file = "").
  { unfold Target.final_raw_path.
    assert (P : (match file with Some f => name f | None => "" end) = "").
    { destruct Hf as [->|(f & -> & Hn)]; [reflexivity|exact Hn]. }
    rewrite P. simpl. rewrite Ht. destruct (Py.truthy text); reflexivity. }
  rewrite R. reflexivity.
Qed.

(** X3. A local reference at which there is no regular file makes [update]
    yield the single value "Invalid or missing file." and clear the target
    path; no exception is raised and no file is touched. *)
Theorem X3_update_on_missing_file (e : Env) (text : string) (file : option File)
    (s : State) :
  let raw := Target.final_raw_path text file in
  raw <> "" ->
  Source.is_url raw = false ->
  Fs.isfile e s raw = false ->
  Target.update e text file s =
    ([Target.blank Target.InvalidOrMissing], set_target_path None s, Ok tt).
Proof.
  intros raw Hne Hurl Hf. unfold Target.update. fold raw.
  destruct raw as [|c raw'] eqn:Hraw; [congruence|]. rewrite <- Hraw in *.
  replace (Py.truthy raw) with true by (rewrite Hraw; reflexivity).
  simpl negb. cbv iota. unfold Target.obtain_local_path.
  rewrite is_url_inline, Hurl. unfold Target.ensure_in_allowed_dir.
  rewrite Hf. reflexivity.
Qed.


(** ** Edge cases of the batch flow *)

(** X5. In the batch flow the temp file is opened before the request is
    sent: when the fetch then fails, [download_file] raises and the file it
    has just created stays behind, empty. *)
Theorem X5_failed_fetch_leaves_temp_file (e : Env) (url : string) (s s1 : State)
    (path : string) :
  Spec.fetch_fails e url ->
  Tempfile.NamedTemporaryFile e (Spec.suffix_for url) (gettempdir e) s = (s1, Ok path) ->
  exists ex,
    Source.download_file e url s = (s1, Raise ex) /\
    Fs.isfile e s path = false /\
    Fs.read e s1 path = Some [].
Proof.
  intros Hfail T.
  assert (exists ex, Source.download_file e url s = (s1, Raise ex)) as [ex E].
  { unfold Source.download_file. rewrite suffix_for_ext. unfold bind at 1.
    rewrite T. unfold Requests.get, bind at 1. unfold Spec.fetch_fails in Hfail.
    destruct (requests_get e url) as [r|]; [|unfold raise; eauto].
    unfold ret at 1. unfold Requests.raise_for_status, bind at 1.
    destruct Hfail as [A B]. apply Z.leb_le in A. apply Z.ltb_lt in B.
    rewrite A, B. simpl. unfold raise. eauto. }
  exists ex. split; [exact E|].
  apply named_temporary_file_name in T. destruct T as (_ & Hfree & Hnew & _). auto.
Qed.


(** ** Invariants of the two handlers *)

Section Invariants.
Context (e : Env).

(** The generator either stops at once on an exception or is the loop over
    the chunks of a fetch that succeeded. *)
Lemma download_in_chunks_cases (url : string) (s : State) :
  (exists ex s0,
      Target.download_in_chunks e url s = GStop s0 (Raise ex) /\ Spec.extends e s s0) \/
  (exists r s1 tmp_path,
      Spec.fetch_succeeds e url r /\
      Tempfile.NamedTemporaryFile e (Spec.suffix_for url)
        (Target.download_folder e s) s = (s1, Ok tmp_path)).
Proof.
  destruct (requests_get e url) as [r|] eqn:G.
  - destruct (decide (400 <= status_code r < 600)) as [Hbad|Hok].
    + left. destruct (download_in_chunks_stop e url s) as (ex & E & _).
      { unfold Spec.fetch_fails. rewrite G. exact Hbad. }
      exists ex, s. split; [exact E|apply extends_refl].
    + destruct (Tempfile.NamedTemporaryFile e (Spec.suffix_for url)
                  (Target.download_folder e s) s) as [s1 [tmp|ex]] eqn:T.
      * right. exists r, s1, tmp. split; [split; assumption|reflexivity].
      * left. exists ex, s1. split.
        -- unfold Target.download_in_chunks, Requests.get, Requests.raise_for_status, bind.
           rewrite G. unfold ret at 1. rewrite (status_ok r Hok). unfold ret.
           rewrite suffix_for_ext, T. reflexivity.
        -- apply mkstemp_inner_extends in T. exact T.
  - left. destruct (download_in_chunks_stop e url s) as (ex & E & _).
    { unfold Spec.fetch_fails. rewrite G. exact I. }
    exists ex, s. split; [exact E|apply extends_refl].
Qed.

(** A path the guard of the single flow returns, unless it is the empty
    string, is a regular file. *)
Lemma ensure_in_allowed_dir_isfile (filepath : string) (s s' : State) (p : string) :
  Target.ensure_in_allowed_dir e filepath s = (s', Ok p) ->
  p <> "" -> Fs.isfile e s' p = true.
Proof.
  unfold Target.ensure_in_allowed_dir.
  destruct (Fs.isfile e s filepath) eqn:F; simpl.
  - destruct (Target.is_in_allowed_dir e filepath).
    + intros H _. injection H as <- <-. exact F.
    + unfold bind, ret. intros H _.
      pose proof (copy2_cases e filepath
                    (PosixPath.join (gettempdir e) (PosixPath.basename filepath)) s) as C.
      apply isfile_read in F. destruct F as [data Hd]. rewrite Hd in C.
      destruct (decide _).
      * rewrite C in H. discriminate.
      * destruct C as (s1 & E & Hnew & _). rewrite E in H. injection H as <- <-.
        apply isfile_read. rewrite Hnew. eauto.
  - intros H Hp. injection H as _ <-. congruence.
Qed.




(** What [obtain_local_path] leaves behind, and what it returns. *)
Lemma obtain_local_path_extends (raw : string) (s s' : State)
    (ys : list Target.Shown) (r : Result (option string)) :
  Target.obtain_local_path e raw s = (ys, s', r) ->
  Spec.extends e s s' /\
  forall p, r = Ok (Some p) -> p <> "" -> Fs.isfile e s' p = true.
Proof.
  unfold Target.obtain_local_path. rewrite is_url_inline.
  destruct (Source.is_url raw).
  - destruct (download_in_chunks_cases raw s)
      as [(ex & s0 & E & X)|(resp & s1 & tmp & Hfetch & T)].
    + rewrite E. simpl. intros H. injection H as _ <- <-.
      split; [exact X|discriminate].
    + rewrite (download_in_chunks_loop e raw s s1 resp tmp Hfetch T).
      rewrite consume_write_chunks. cbv zeta.
      destruct (Target.ensure_in_allowed_dir e tmp _) as [s2 [safe|ex]] eqn:G;
        intros H; injection H as _ <- <-.
      * split.
        -- eapply extends_trans; [eapply mkstemp_inner_extends; exact T|].
           eapply extends_trans; [apply write_all_extends|].
           eapply ensure_in_allowed_dir_extends. exact G.
        -- intros p Hp Hne. injection Hp as <-.
           eapply ensure_in_allowed_dir_isfile; eassumption.
      * split; [|discriminate].
        eapply extends_trans; [eapply mkstemp_inner_extends; exact T|].
        eapply extends_trans; [apply write_all_extends|].
        eapply ensure_in_allowed_dir_extends. exact G.
  - destruct (Target.ensure_in_allowed_dir e raw s) as [s1 [p|ex]] eqn:G;
      intros H; injection H as _ <- <-.
    + split; [eapply ensure_in_allowed_dir_extends; exact G|].
      intros q Hq Hne. injection Hq as <-.
      eapply ensure_in_allowed_dir_isfile; eassumption.
    + split; [eapply ensure_in_allowed_dir_extends; exact G|discriminate].
Qed.

(** [update] of the single flow is [obtain_local_path] followed by a
    change of the target path alone. *)
Lemma target_update_shape (text : string) (file : option File) (s s' : State)
    (ys : list Target.Shown) (r : Result unit) :
  Target.update e text file s = (ys, s', r) ->
  exists s1 t, Spec.extends e s s1 /\ (s' = s1 \/ s' = set_target_path t s1).
Proof.
  unfold Target.update. destruct (negb _).
  - intros H. injection H as _ <- _. exists s, None.
    split; [apply extends_refl|right; reflexivity].
  - destruct (Target.obtain_local_path e _ s) as [[ys1 s1] [[p|]|ex]] eqn:O;
      apply obtain_local_path_extends in O; destruct O as [X _].
    + destruct (Py.truthy p).
      * unfold Target.present.
        destruct (is_image e s1 p); [|destruct (is_video e s1 p);
          [destruct (Target.oversized e _ p)|]];
          intros H; injection H as _ <- _;
          first [ exists s1, (Some p); split; [exact X|right; reflexivity]
                | exists s1, None; split; [exact X|right; reflexivity] ].
      * intros H. injection H as _ <- _.
        exists s1, None. split; [exact X|right; reflexivity].
    + intros H. injection H as _ <- _.
      exists s1, None. split; [exact X|right; reflexivity].
    + intros H. injection H as _ <- _.
      exists s1, None. split; [exact X|left; reflexivity].
Qed.

End Invariants.

(** X7. Neither handler ever removes a file: whatever the input and
    however the run ends, with a result or with an exception, every regular
    file that was there before is there afterwards. *)
Theorem X7_no_file_is_removed (e : Env) (s : State) (q : string) :
  Fs.isfile e s q = true ->
  (forall text_str files s' r,
      Source.update e text_str files s = (s', r) -> Fs.isfile e s' q = true) /\
  (forall text file ys s' r,
      Target.update e text file s = (ys, s', r) -> Fs.isfile e s' q = true).
Proof.
  intros Hq. split.
  - intros text_str files s' r. unfold Source.update, bind.
    destruct (Source.update_processed_paths e text_str files s) as [s1 [ps|ex]] eqn:P;
      apply process_all_extends in P; destruct P as [M _].
    + destruct (_ || _); intros H; injection H as <- _; apply M, Hq.
    + intros H. injection H as <- _. apply M, Hq.
  - intros text file ys s' r H. apply target_update_shape in H.
    destruct H as (s1 & t & [M _] & [->| ->]); apply M, Hq.
Qed.

(** X8. Each handler writes its own item of [state_manager] and no other:
    the batch flow leaves the target path and the download folder as they
    were, the single flow leaves the source paths and the download folder
    as they were, however the run ends. *)
Theorem X8_handlers_keep_to_their_item (e : Env) (s : State) :
  (forall text_str files s' r,
      Source.update e text_str files s = (s', r) ->
      target_path s' = target_path s /\ custom_temp_folder s' = custom_temp_folder s) /\
  (forall text file ys s' r,
      Target.update e text file s = (ys, s', r) ->
      source_paths s' = source_paths s /\ custom_temp_folder s' = custom_temp_folder s).
Proof.
  split.
  - intros text_str files s' r. unfold Source.update, bind.
    destruct (Source.update_processed_paths e text_str files s) as [s1 [ps|ex]] eqn:P;
      apply process_all_extends in P; destruct P as (_ & C & T & _).
    + destruct (_ || _); intros H; injection H as <- _; simpl; auto.
    + intros H. injection H as <- _. auto.
  - intros text file ys s' r H. apply target_update_shape in H.
    destruct H as (s1 & t & (_ & C & _ & P & _) & [->| ->]); simpl; auto.
Qed.



(** ** Collisions and their absence *)


(** X12. Two downloads never share a temp file: the second one gets a
    file that resolves elsewhere than the first one's, and what the first
    download stored is still there when the second is over. *)
Theorem X12_downloads_use_distinct_files (e : Env) (url1 url2 : string)
    (s s1 s2 : State) (path1 path2 : string) :
  Source.download_file e url1 s = (s1, Ok path1) ->
  Source.download_file e url2 s1 = (s2, Ok path2) ->
  realpath e path1 <> realpath e path2 /\
  Fs.isfile e s2 path1 = true /\
  Fs.read e s2 path1 = Fs.read e s1 path1.
Proof.
  intros D1 D2.
  apply download_file_ok in D1. destruct D1 as (t1 & r1 & _ & _ & ->).
  apply download_file_ok in D2. destruct D2 as (t2 & r2 & _ & T2 & ->).
  apply named_temporary_file_name in T2. destruct T2 as (_ & Hfree & _ & Hframe).
  assert (F1 : Fs.isfile e (Fs.append e path1 (Requests.content r1) t1) path1 = true).
  { apply isfile_read. rewrite read_append_same. eauto. }
  assert (Hne : realpath e path1 <> realpath e path2).
  { intros Heq. unfold Fs.isfile, Fs.read in F1, Hfree. rewrite Heq in F1. congruence. }
  assert (R : Fs.read e (Fs.append e path2 (Requests.content r2) t2) path1
              = Fs.read e (Fs.append e path1 (Requests.content r1) t1) path1).
  { rewrite read_append_other by exact Hne. apply Hframe, Hne. }
  split; [exact Hne|]. split; [|exact R].
  apply isfile_read. rewrite R. apply isfile_read, F1.
Qed.

(** X13. A download of the batch flow that returns has stored exactly the
    body of the response in its temp file and has changed no other file;
    the streamed download of the single flow, for the same URL, ends with a
    file of the same contents. *)
Theorem X13_download_file_stores_body (e : Env) (url : string) (s s' : State)
    (path : string) :
  Source.download_file e url s = (s', Ok path) ->
  exists r,
    Spec.fetch_succeeds e url r /\
    Fs.read e s' path = Some (Requests.content r) /\
    (forall q, realpath e q <> realpath e path -> Fs.read e s' q = Fs.read e s q) /\
    (forall s0 parts s2,
        drain (Target.download_in_chunks e url s0) = (parts, s2, Ok tt) ->
        exists path2, last parts = Some (Target.FinalPath path2) /\
                      Fs.read e s2 path2 = Fs.read e s' path).
Proof.
  intros D. apply download_file_ok in D. destruct D as (s1 & r & Hfetch & T & ->).
  apply named_temporary_file_name in T. destruct T as (_ & _ & Hnew & Hframe).
  assert (Hbody : Fs.read e (Fs.append e path (Requests.content r) s1) path
                  = Some (Requests.content r)).
  { rewrite read_append_same, Hnew. reflexivity. }
  exists r. split; [exact Hfetch|]. split; [exact Hbody|]. split.
  - intros q Hq. rewrite read_append_other by exact Hq. apply Hframe, Hq.
  - intros s0 parts s2 H. pose proof H as H0.
    apply download_in_chunks_ok in H0. destruct H0 as (t1 & r' & path2 & Hfetch' & T').
    assert (r' = r) as ->.
    { destruct Hfetch as [G _]. destruct Hfetch' as [G' _]. congruence. }
    destruct (download_in_chunks_run e url s0 t1 r path2 Hfetch' T') as (s3 & E & Hr & _).
    rewrite E in H. injection H as <- <-.
    exists path2. split; [apply last_snoc|]. rewrite Hr, Hbody. reflexivity.
Qed.

(** ** What the single flow shows for a download *)

Section Shown.
Context (e : Env).

(** The download branch of [update] on a fetch that succeeds. *)
Lemma obtain_local_path_fetched (raw : string) (s s1 : State) (r : Response)
    (tmp_path : string) :
  Source.is_url raw = true ->
  Spec.fetch_succeeds e raw r ->
  Tempfile.NamedTemporaryFile e (Spec.suffix_for raw)
    (Target.download_folder e s) s = (s1, Ok tmp_path) ->
  let chunks := Requests.iter_content (1024 * 256) r in
  let progress := List.map (Spec.progress_shown (default 0 (content_length r)))
                    (Spec.running_totals 0 (Spec.nonempty chunks)) in
  Target.obtain_local_path e raw s =
    match Target.ensure_in_allowed_dir e tmp_path (Spec.write_all e tmp_path chunks s1) with
    | (s3, Raise ex) => (progress, s3, Raise ex)
    | (s3, Ok safe_path) =>
        (progress ++ [Target.blank Target.DownloadComplete], s3, Ok (Some safe_path))
    end.
Proof.
  intros Hurl Hfetch T chunks progress.
  unfold Target.obtain_local_path. rewrite is_url_inline, Hurl.
  rewrite (download_in_chunks_loop e raw s s1 r tmp_path Hfetch T).
  rewrite consume_write_chunks. reflexivity.
Qed.

(** The temp file once the chunks are written holds the body. *)
Lemma written_file (url dir : string) (s s1 : State) (r : Response) (tmp_path : string) :
  Tempfile.NamedTemporaryFile e (Spec.suffix_for url) dir s = (s1, Ok tmp_path) ->
  Fs.read e (Spec.write_all e tmp_path (Requests.iter_content (1024 * 256) r) s1) tmp_path
  = Some (Requests.content r).
Proof.
  intros T. apply named_temporary_file_name in T. destruct T as (_ & _ & Hnew & _).
  destruct (write_all_read e tmp_path (Requests.iter_content (1024 * 256) r) s1 [] Hnew)
    as [Hr _].
  rewrite Hr. simpl. rewrite iter_content_concat. reflexivity.
Qed.

Lemma running_totals_last (chunks : list (list byte)) :
  forall (start : Z) (c : list byte),
    last (Spec.running_totals start (c :: chunks))
    = Some (start + Z.of_nat (length (concat (c :: chunks)))).
Proof.
  induction chunks as [|c' rest IH]; intros start c.
  - simpl. rewrite app_nil_r. reflexivity.
  - change (Spec.running_totals start (c :: c' :: rest))
      with ((start + Z.of_nat (length c))
              :: Spec.running_totals (start + Z.of_nat (length c)) (c' :: rest)).
    rewrite last_cons, IH. simpl concat. rewrite (length_app c). f_equal. lia.
Qed.

Lemma last_map_Z (f : Z -> Z) (l : list Z) :
  last (List.map f l) = option_map f (last l).
Proof.
  induction l as [|x l IH]; [reflexivity|].
  destruct l as [|y l]; [reflexivity|].
  change (last (f x :: List.map f (y :: l)) = option_map f (last (x :: y :: l))).
  rewrite (last_cons x), (last_cons (f x)), IH.
  destruct (last (y :: l)) eqn:L; [reflexivity|].
  exfalso. apply last_None in L. discriminate.
Qed.

End Shown.

(** The values [update] yields on a fetch that succeeds start with the
    progress values; what follows is nothing or two values. *)
Lemma update_fetched_values (e : Env) (text : string) (file : option File)
    (s s1 : State) (r : Response) (tmp_path : string) :
  let raw := Target.final_raw_path text file in
  Source.is_url raw = true ->
  Spec.fetch_succeeds e raw r ->
  Tempfile.NamedTemporaryFile e (Spec.suffix_for raw)
    (Target.download_folder e s) s = (s1, Ok tmp_path) ->
  let progress := List.map (Spec.progress_shown (default 0 (content_length r)))
                    (Spec.running_totals 0
                       (Spec.nonempty (Requests.iter_content (1024 * 256) r))) in
  exists rest s' res,
    Target.update e text file s = (progress ++ rest, s', res) /\
    (rest = [] \/ exists final, rest = [Target.blank Target.DownloadComplete; final]).
Proof.
  intros raw Hurl Hfetch T progress.
  pose proof (obtain_local_path_fetched e raw s s1 r tmp_path Hurl Hfetch T) as O.
  cbv zeta in O. fold progress in O.
  unfold Target.update. fold raw.
  replace (Py.truthy raw) with true by (destruct raw; [discriminate Hurl|reflexivity]).
  simpl negb. cbv iota. rewrite O.
  destruct (Target.ensure_in_allowed_dir e tmp_path _) as [s3 [safe|ex]].
  - destruct (Py.truthy safe).
    + destruct (Target.present e safe s3) as [shown s4].
      exists [Target.blank Target.DownloadComplete; shown], s4, (Ok tt).
      rewrite <- app_assoc. split; [reflexivity|eauto].
    + eexists [Target.blank Target.DownloadComplete; _], _, (Ok tt).
      rewrite <- app_assoc. split; [reflexivity|eauto].
  - exists [], s3, (Raise ex). rewrite app_nil_r. split; [reflexivity|auto].
Qed.

(** X14. On a fetch that succeeds, the single flow yields one progress
    value per chunk that carries data, in order, then "Download complete!",
    then exactly one last value, which tells what the file is; if the copy
    into the temp directory is refused, the progress values are all that is
    yielded before the exception. *)
Theorem X14_values_of_a_download (e : Env) (text : string) (file : option File)
    (s s1 : State) (r : Response) (tmp_path : string) :
  let raw := Target.final_raw_path text file in
  Source.is_url raw = true ->
  Spec.fetch_succeeds e raw r ->
  Tempfile.NamedTemporaryFile e (Spec.suffix_for raw)
    (Target.download_folder e s) s = (s1, Ok tmp_path) ->
  let progress := List.map (Spec.progress_shown (default 0 (content_length r)))
                    (Spec.running_totals 0
                       (Spec.nonempty (Requests.iter_content (1024 * 256) r))) in
  exists s',
    (exists ex, Target.update e text file s = (progress, s', Raise ex)) \/
    (exists final,
        Target.update e text file s =
          (progress ++ [Target.blank Target.DownloadComplete; final], s', Ok tt) /\
        Target.info final <> Target.DownloadComplete /\
        Target.info final <> Target.NoInput /\
        forall pct d, Target.info final <> Target.DownloadingPct pct /\
                      Target.info final <> Target.DownloadedBytes d).
Proof.
  intros raw Hurl Hfetch T progress.
  pose proof (obtain_local_path_fetched e raw s s1 r tmp_path Hurl Hfetch T) as O.
  cbv zeta in O. fold progress in O.
  unfold Target.update. fold raw.
  replace (Py.truthy raw) with true by (destruct raw; [discriminate Hurl|reflexivity]).
  simpl negb. cbv iota. rewrite O.
  destruct (Target.ensure_in_allowed_dir e tmp_path _) as [s3 [safe|ex]].
  - destruct (Py.truthy safe).
    + destruct (Target.present e safe s3) as [shown s4] eqn:P. exists s4. right.
      exists shown. rewrite <- app_assoc. split; [reflexivity|].
      unfold Target.present in P.
      destruct (is_image e s3 safe); [|destruct (is_video e s3 safe);
        [destruct (Target.oversized e _ safe)|]];
        injection P as <- _; simpl; repeat split; discriminate.
    + eexists. right. eexists. rewrite <- app_assoc. split; [reflexivity|].
      simpl. repeat split; discriminate.
  - exists s3. left. exists ex. reflexivity.
Qed.

(** The progress values as percentages, or as byte counts. *)
Lemma progress_shown_percentages (e : Env) (r : Response) (N : Z) :
  let totals := Spec.running_totals 0
                  (Spec.nonempty (Requests.iter_content (1024 * 256) r)) in
  (content_length r = Some N -> 0 < N ->
   Z.of_nat (length (Requests.content r)) = N ->
   exists pcts,
     List.map (Spec.progress_shown (default 0 (content_length r))) totals
       = List.map (fun pct => Target.blank (Target.DownloadingPct pct)) pcts /\
     StronglySorted Z.le pcts /\
     Forall (fun pct => 0 <= pct <= 100) pcts /\
     last pcts = Some 100) /\
  (content_length r = None ->
   List.map (Spec.progress_shown (default 0 (content_length r))) totals
     = List.map (fun d => Target.blank (Target.DownloadedBytes d)) totals).
Proof.
  intros totals. split.
  - intros HN Hpos Hlen. rewrite HN. simpl default.
    exists (List.map (fun d => d * 100 / N) totals).
    pose proof (running_totals_bounds
                  (Spec.nonempty (Requests.iter_content (1024 * 256) r)) 0) as B.
    rewrite nonempty_concat, iter_content_concat, Hlen in B. fold totals in B.
    pose proof (running_totals_sorted
                  (Spec.nonempty (Requests.iter_content (1024 * 256) r)) 0) as S.
    fold totals in S.
    split; [|split; [|split]].
    + rewrite map_map. apply map_ext. intros d. unfold Spec.progress_shown.
      replace (0 <? N) with true by (symmetry; apply Z.ltb_lt; exact Hpos).
      reflexivity.
    + clear B. induction S as [|d ds Hs IH Hall]; simpl; constructor; [exact IH|].
      rewrite Forall_map. eapply Forall_impl; [exact Hall|].
      intros d' Hd. simpl in *. apply Z.div_le_mono; lia.
    + rewrite Forall_map. eapply Forall_impl; [exact B|].
      intros d Hd. simpl in *. split.
      * apply Z.div_pos; lia.
      * apply Z.div_le_upper_bound; lia.
    + subst totals.
      destruct (Spec.nonempty (Requests.iter_content (1024 * 256) r)) as [|c cs] eqn:Hc.
      * exfalso. pose proof (nonempty_concat (Requests.iter_content (1024 * 256) r)) as K.
        rewrite Hc, iter_content_concat in K. rewrite <- K in Hlen. simpl in Hlen. lia.
      * rewrite last_map_Z, running_totals_last.
        rewrite <- Hc, nonempty_concat, iter_content_concat, Hlen.
        cbn [option_map]. f_equal. rewrite Z.add_0_l.
        symmetry. apply Z.div_unique_exact; lia.
  - intros HN. rewrite HN. reflexivity.
Qed.

(** X15. When the server announced the length [N > 0] of the body, the
    progress values the single flow yields for a download are percentages:
    they never decrease, lie between 0 and 100, and the last one is 100;
    what follows them is "Download complete!" and one last value, or
    nothing when the copy into the temp directory is refused. *)
Theorem X15_progress_percentages (e : Env) (text : string) (file : option File)
    (s s1 : State) (r : Response) (tmp_path : string) (N : Z) :
  let raw := Target.final_raw_path text file in
  Source.is_url raw = true ->
  Spec.fetch_succeeds e raw r ->
  Tempfile.NamedTemporaryFile e (Spec.suffix_for raw)
    (Target.download_folder e s) s = (s1, Ok tmp_path) ->
  content_length r = Some N -> 0 < N ->
  Z.of_nat (length (Requests.content r)) = N ->
  exists pcts rest s' res,
    Target.update e text file s =
      (List.map (fun pct => Target.blank (Target.DownloadingPct pct)) pcts ++ rest,
       s', res) /\
    StronglySorted Z.le pcts /\
    Forall (fun pct => 0 <= pct <= 100) pcts /\
    last pcts = Some 100 /\
    (rest = [] \/ exists final, rest = [Target.blank Target.DownloadComplete; final]).
Proof.
  intros raw Hurl Hfetch T HN Hpos Hlen.
  destruct (proj1 (progress_shown_percentages e r N) HN Hpos Hlen)
    as (pcts & Hmap & Hsorted & Hbound & Hlast).
  destruct (update_fetched_values e text file s s1 r tmp_path Hurl Hfetch T)
    as (rest & s' & res & E & Hrest). cbv zeta in E. rewrite Hmap in E.
  exists pcts, rest, s', res. split; [exact E|]. repeat split; auto.
Qed.

(** X17. When the server announced no length, the progress values of a
    download carry the byte counts themselves, one per chunk with data, each
    the sum of the chunks so far. *)
Theorem X17_progress_byte_counts (e : Env) (text : string) (file : option File)
    (s s1 : State) (r : Response) (tmp_path : string) :
  let raw := Target.final_raw_path text file in
  Source.is_url raw = true ->
  Spec.fetch_succeeds e raw r ->
  Tempfile.NamedTemporaryFile e (Spec.suffix_for raw)
    (Target.download_folder e s) s = (s1, Ok tmp_path) ->
  content_length r = None ->
  let totals := Spec.running_totals 0
                  (Spec.nonempty (Requests.iter_content (1024 * 256) r)) in
  exists rest s' res,
    Target.update e text file s =
      (List.map (fun d => Target.blank (Target.DownloadedBytes d)) totals ++ rest,
       s', res) /\
    (rest = [] \/ exists final, rest = [Target.blank Target.DownloadComplete; final]).
Proof.
  intros raw Hurl Hfetch T HN totals.
  pose proof (proj2 (progress_shown_percentages e r 0) HN) as Hmap.
  destruct (update_fetched_values e text file s s1 r tmp_path Hurl Hfetch T)
    as (rest & s' & res & E & Hrest). cbv zeta in E. rewrite Hmap in E.
  exists rest, s', res. split; [exact E|exact Hrest].
Qed.

(** X16. A download into a folder that is not an allowed directory is
    kept there and copied into the temp directory under its base name; the
    single flow goes on with the copy, and both files hold the body. *)
Theorem X16_download_outside_is_copied (e : Env) (raw : string) (s s1 : State)
    (r : Response) (tmp_path : string) :
  let new_path := PosixPath.join (gettempdir e) (PosixPath.basename tmp_path) in
  Source.is_url raw = true ->
  Spec.fetch_succeeds e raw r ->
  Tempfile.NamedTemporaryFile e (Spec.suffix_for raw)
    (Target.download_folder e s) s = (s1, Ok tmp_path) ->
  Target.is_in_allowed_dir e tmp_path = false ->
  realpath e tmp_path <> realpath e new_path ->
  exists ys s',
    Target.obtain_local_path e raw s = (ys, s', Ok (Some new_path)) /\
    Fs.read e s' new_path = Some (Requests.content r) /\
    Fs.read e s' tmp_path = Some (Requests.content r).
Proof.
  intros new_path Hurl Hfetch T Hout Hne.
  pose proof (obtain_local_path_fetched e raw s s1 r tmp_path Hurl Hfetch T) as O.
  cbv zeta in O. rewrite O. clear O.
  pose proof (written_file e raw _ s s1 r tmp_path T) as W.
  set (s2 := Spec.write_all e tmp_path (Requests.iter_content (1024 * 256) r) s1) in *.
  assert (F : Fs.isfile e s2 tmp_path = true) by (apply isfile_read; rewrite W; eauto).
  rewrite (ensure_in_allowed_dir_file e tmp_path s2 F).
  rewrite is_in_allowed_dir_same in Hout.
  pose proof (ensure_in_temp_outside e tmp_path s2 F Hout) as C.
  unfold Spec.copied_to_temp in C. fold new_path in C.
  destruct (decide (realpath e tmp_path = realpath e new_path)); [contradiction|].
  destruct C as (s3 & E & Hnew & Hframe). rewrite E.
  eexists. exists s3. split; [reflexivity|]. split.
  - rewrite Hnew. exact W.
  - rewrite Hframe by exact Hne. exact W.
Qed.

(** ** The text box of the batch flow *)

Lemma strip_after_space (q : string) : Py.strip (String " "%char q) = Py.strip q.
Proof. reflexivity. Qed.

Lemma textbox_paths_fields (fields : list string) :
  Forall Spec.clean_reference fields ->
  List.map Py.strip
    (List.filter (fun p => Py.truthy (Py.strip p)) (List.map (String " "%char) fields))
  = fields.
Proof.
  induction 1 as [|q rest (Ht & Hs & _) _ IH]; [reflexivity|].
  simpl List.map at 2. simpl List.filter. rewrite strip_after_space, Hs, Ht.
  simpl List.map. rewrite strip_after_space, Hs, IH. reflexivity.
Qed.


(** Reading back what [", ".join] has printed. *)
Lemma textbox_paths_join (ps : list string) :
  Forall Spec.clean_reference ps ->
  Source.textbox_paths (String.concat ", " ps) = ps.
Proof.
  intros Hclean. destruct ps as [|p rest]; [reflexivity|].
  unfold Source.textbox_paths. rewrite split_join.
  - inversion Hclean as [|? ? (Ht & Hs & _) Hrest]; subst.
    simpl List.filter. rewrite Hs, Ht. simpl List.map. rewrite Hs.
    f_equal. apply textbox_paths_fields, Hrest.
  - eapply Forall_impl; [exact Hclean|]. intros w (_ & _ & Hw). exact Hw.
Qed.


(** X19. Whatever the text, the references [update] reads from it are
    never empty, have no space around them and contain no comma: a path
    with a comma in it cannot be entered. Printing them with ", " and
    reading them again changes nothing. *)
Theorem X19_textbox_paths_are_clean (text_str : string) :
  Forall Spec.clean_reference (Source.textbox_paths text_str) /\
  Source.textbox_paths (String.concat ", " (Source.textbox_paths text_str))
  = Source.textbox_paths text_str.
Proof.
  assert (C : Forall Spec.clean_reference (Source.textbox_paths text_str)).
  { unfold Source.textbox_paths.
    pose proof (split_no_comma text_str) as H.
    induction H as [|w ws Hw _ IH]; [constructor|].
    simpl. destruct (Py.truthy (Py.strip w)) eqn:T; [|exact IH].
    simpl. constructor; [|exact IH].
    split; [exact T|]. split; [apply strip_idempotent|].
    unfold Py.strip. apply has_comma_rstrip, has_comma_lstrip, Hw. }
  split; [exact C|]. apply textbox_paths_join, C.
Qed.

(** ** [render] after [update] *)

Section Render.
Context (e : Env).
Hypothesis Hhelpers : Spec.helpers_read_files_only e.

(** What [render] shows when no target path is stored. *)
Lemma render_without_target (s : State) :
  target_path s = None ->
  Target.target_image (Target.render e s) = None /\
  Target.target_video (Target.render e s) = None /\
  Target.target_file (Target.render e s) = None /\
  Target.target_path_textbox (Target.render e s) = "".
Proof. intros H. unfold Target.render. rewrite H. simpl. auto. Qed.

(** What [render] shows for a stored target path, by kind and size. *)
Lemma render_with_target (s : State) (p : string) :
  target_path s = Some p ->
  is_image e s p && is_video e s p = false ->
  Target.target_path_textbox (Target.render e s) = p /\
  (is_image e s p = true ->
   Target.target_image (Target.render e s) = Some (Target.ImagePath p) /\
   Target.target_video (Target.render e s) = None) /\
  (is_video e s p = true ->
   Target.target_image (Target.render e s)
     = (if Target.oversized e s p then Some (Target.FirstFrame p) else None) /\
   Target.target_video (Target.render e s)
     = (if Target.oversized e s p then None else Some p)) /\
  (is_image e s p = false -> is_video e s p = false ->
   Target.target_image (Target.render e s) = None /\
   Target.target_video (Target.render e s) = None /\
   Target.target_file (Target.render e s) = None).
Proof.
  intros H X. unfold Target.render, Target.oversized. rewrite H.
  destruct (is_image e s p), (is_video e s p); try discriminate X;
    destruct (Target.FILE_SIZE_LIMIT <? get_file_size e s p); simpl;
    repeat split; intros; try discriminate; reflexivity.
Qed.

Lemma helpers_after_set_target (t : option string) (s : State) (p : string) :
  is_image e (set_target_path t s) p = is_image e s p /\
  is_video e (set_target_path t s) p = is_video e s p /\
  get_file_size e (set_target_path t s) p = get_file_size e s p.
Proof.
  destruct (Hhelpers (set_target_path t s) s p eq_refl) as (_ & A & B & C). auto.
Qed.

Lemma helpers_after_set_source (t : option (list string)) (s : State) (p : string) :
  is_audio e (set_source_paths t s) p = is_audio e s p /\
  is_image e (set_source_paths t s) p = is_image e s p.
Proof.
  destruct (Hhelpers (set_source_paths t s) s p eq_refl) as (A & B & _). auto.
Qed.

(** The last value of [present] is what [render] shows afterwards. *)
Lemma render_after_present (p : string) (s : State) :
  is_image e s p && is_video e s p = false ->
  let '(shown, s') := Target.present e p s in
  Target.target_image (Target.render e s') = Target.image_value shown /\
  Target.target_video (Target.render e s') = Target.video_value shown.
Proof.
  intros X. unfold Target.present.
  destruct (helpers_after_set_target (Some p) s p) as (Ai & Av & As).
  destruct (is_image e s p) eqn:Im; [|destruct (is_video e s p) eqn:Vi].
  - simpl in X.
    destruct (render_with_target (set_target_path (Some p) s) p eq_refl)
      as (_ & R & _); [rewrite Ai, Av, X; reflexivity|].
    simpl. apply R. rewrite Ai. reflexivity.
  - destruct (render_with_target (set_target_path (Some p) s) p eq_refl)
      as (_ & _ & R & _); [rewrite Ai; reflexivity|].
    specialize (R Av).
    destruct (Target.oversized e (set_target_path (Some p) s) p); simpl; exact R.
  - destruct (render_without_target (set_target_path None s) eq_refl) as (A & B & _).
    simpl. auto.
Qed.

Lemma existsb_false_filter (f : string -> bool) (l : list string) :
  existsb f l = false -> List.filter f l = [].
Proof.
  induction l as [|x l IH]; [reflexivity|].
  simpl. destruct (f x); [discriminate|exact IH].
Qed.

Lemma existsb_true_head (f : string -> bool) (l : list string) :
  existsb f l = true -> head (List.filter f l) <> None.
Proof.
  induction l as [|x l IH]; [discriminate|].
  simpl. destruct (f x); [discriminate|exact IH].
Qed.

Lemma has_audio_after_set (t : option (list string)) (s : State) (ps : list string) :
  Source.has_audio e (set_source_paths t s) ps = Source.has_audio e s ps /\
  Source.has_image e (set_source_paths t s) ps = Source.has_image e s ps /\
  Source.filter_audio_paths e (set_source_paths t s) ps = Source.filter_audio_paths e s ps /\
  Source.filter_image_paths e (set_source_paths t s) ps = Source.filter_image_paths e s ps.
Proof.
  unfold Source.has_audio, Source.has_image, Source.filter_audio_paths,
    Source.filter_image_paths.
  induction ps as [|p ps (A & B & C & D)]; [auto|].
  destruct (helpers_after_set_source t s p) as [Ha Hi].
  simpl. rewrite Ha, Hi, A, B, C, D. auto.
Qed.

End Render.

(** X20. When the helpers of the application look at the files only and
    take no path for an image and a video at once, [render] after a run of
    the single flow that ended without exception shows in its two previews
    what the last value of that run showed, and the stored target path in
    its text box. *)
Theorem X20_render_after_target_update (e : Env) (text : string)
    (file : option File) (s s' : State) (ys : list Target.Shown) :
  Spec.helpers_read_files_only e ->
  (forall s0 p, is_image e s0 p && is_video e s0 p = false) ->
  Target.update e text file s = (ys, s', Ok tt) ->
  exists shown,
    last ys = Some shown /\
    Target.target_image (Target.render e s') = Target.image_value shown /\
    Target.target_video (Target.render e s') = Target.video_value shown /\
    Target.target_path_textbox (Target.render e s') = default "" (target_path s').
Proof.
  intros Hh Hx. unfold Target.update.
  assert (Hblank : forall s0 i,
             exists shown,
               last [Target.blank i] = Some shown /\
               Target.target_image (Target.render e (set_target_path None s0))
                 = Target.image_value shown /\
               Target.target_video (Target.render e (set_target_path None s0))
                 = Target.video_value shown /\
               Target.target_path_textbox (Target.render e (set_target_path None s0))
                 = default "" (target_path (set_target_path None s0))).
  { intros s0 i. exists (Target.blank i).
    destruct (render_without_target e (set_target_path None s0) eq_refl)
      as (A & B & _ & D). simpl. auto. }
  destruct (negb _).
  - intros H. injection H as <- <-. apply Hblank.
  - destruct (Target.obtain_local_path e _ s) as [[ys1 s1] [[p|]|ex]];
      [| |discriminate].
    + destruct (Py.truthy p).
      * pose proof (render_after_present e Hh p s1 (Hx s1 p)) as R.
        destruct (Target.present e p s1) as [shown s2] eqn:P.
        intros H. injection H as <- <-. exists shown.
        split; [apply last_snoc|]. destruct R as [Ri Rv]. split; [exact Ri|].
        split; [exact Rv|].
        unfold Target.present in P.
        destruct (is_image e s1 p); [|destruct (is_video e s1 p);
          [destruct (Target.oversized e _ p)|]]; injection P as _ <-.
        all: first
               [ exact (proj1 (render_with_target e (set_target_path (Some p) s1) p
                                 eq_refl (Hx _ _)))
               | exact (proj2 (proj2 (proj2
                   (render_without_target e (set_target_path None s1) eq_refl)))) ].
      * intros H. injection H as <- <-.
        destruct (Hblank s1 Target.InvalidOrMissing) as (shown & L & R).
        exists shown. split; [|exact R]. rewrite last_snoc. simpl in L. exact L.
    + intros H. injection H as <- <-.
      destruct (Hblank s1 Target.InvalidOrMissing) as (shown & L & R).
      exists shown. split; [|exact R]. rewrite last_snoc. simpl in L. exact L.
Qed.

(** X21. When the helpers of the application look at the files only,
    [render] after a batch that returned shows the two previews the batch
    returned, makes each preview visible exactly when it has a value, and
    offers the stored paths in the file component exactly when one of the
    previews has a value. *)
Theorem X21_render_after_source_update (e : Env) (text_str : string)
    (files : list (option File)) (s s' : State) (preview : Source.Preview) :
  Spec.helpers_read_files_only e ->
  Source.update e text_str files s = (s', Ok preview) ->
  let shown := Source.render e s' in
  Source.source_audio shown = Source.audio_value preview /\
  Source.source_image shown = Source.image_value preview /\
  Source.source_audio_visible shown = bool_decide (Source.audio_value preview <> None) /\
  Source.source_image_visible shown = bool_decide (Source.image_value preview <> None) /\
  (Source.source_file shown = None <->
   Source.audio_value preview = None /\ Source.image_value preview = None).
Proof.
  intros Hh. unfold Source.update, bind.
  destruct (Source.update_processed_paths e text_str files s) as [s1 [ps|ex]];
    [|discriminate].
  destruct (Source.has_audio e s1 ps || Source.has_image e s1 ps) eqn:Any;
    intros H; injection H as <- <-; cbv zeta; unfold Source.render;
    cbn [source_paths set_source_paths default Source.source_audio Source.source_image
         Source.source_audio_visible Source.source_image_visible Source.source_file
         Source.audio_value Source.image_value].
  - destruct (has_audio_after_set e Hh (Some ps) s1 ps) as (A & B & C & D).
    unfold id. rewrite A, B, C, D, Any.
    assert (Ha : Source.has_audio e s1 ps = false ->
                 Source.get_first (Source.filter_audio_paths e s1 ps) = None).
    { intros F. unfold Source.filter_audio_paths.
      rewrite (existsb_false_filter _ _ F). reflexivity. }
    assert (Hi : Source.has_image e s1 ps = false ->
                 Source.get_first (Source.filter_image_paths e s1 ps) = None).
    { intros F. unfold Source.filter_image_paths.
      rewrite (existsb_false_filter _ _ F). reflexivity. }
    assert (Ha' : Source.has_audio e s1 ps = true ->
                  Source.get_first (Source.filter_audio_paths e s1 ps) <> None)
      by apply existsb_true_head.
    assert (Hi' : Source.has_image e s1 ps = true ->
                  Source.get_first (Source.filter_image_paths e s1 ps) <> None)
      by apply existsb_true_head.
    destruct (Source.has_audio e s1 ps) eqn:Au, (Source.has_image e s1 ps) eqn:Im;
      try discriminate Any;
      repeat match goal with
             | H : true = true -> _ |- _ => specialize (H eq_refl)
             | H : false = false -> _ |- _ => specialize (H eq_refl)
             | H : true = false -> _ |- _ => clear H
             | H : false = true -> _ |- _ => clear H
             end;
      repeat match goal with H : _ = None |- _ => rewrite H end;
      repeat split; try reflexivity;
      try (symmetry; apply bool_decide_eq_true; assumption);
      try (symmetry; apply bool_decide_eq_false; intros K; apply K; reflexivity);
      try discriminate; try (intros [K _]; contradiction);
      try (intros [_ K]; contradiction).
  - simpl. repeat split; reflexivity.
Qed.

(** ** The URL test and the empty batch *)

(** X22. Whether a reference is a URL does not depend on the case of its
    letters, and only on how it starts: whatever follows a reference that
    is a URL, the whole is a URL too, and the single flow applies the same
    test as the batch flow. No space is skipped: a reference that starts
    with a space is no URL. *)
Theorem X22_is_url_by_scheme (path : string) :
  Source.is_url (Py.lower path) = Source.is_url path /\
  (forall (rest : string), Source.is_url path = true ->
                           Source.is_url (path +:+ rest) = true) /\
  Source.is_url (String " "%char path) = false /\
  (Py.startswith (Py.lower path) "http://" || Py.startswith (Py.lower path) "https://"
   = Source.is_url path).
Proof.
  split; [|split; [|split]].
  - unfold Source.is_url. rewrite lower_idempotent. reflexivity.
  - intros rest. unfold Source.is_url, Py.startswith. rewrite lower_app.
    rewrite !orb_true_iff. intros [H|H]; [left|right]; apply prefix_app_r, H.
  - reflexivity.
  - reflexivity.
Qed.

(** X23. A batch without references (a text of nothing but commas and
    space, no upload with a name) processes nothing: both previews are
    empty, the stored source paths are cleared, no file is touched and
    nothing is raised. *)
Theorem X23_empty_batch (e : Env) (text_str : string) (files : list (option File))
    (s : State) :
  set_order_ok e ->
  Source.textbox_paths text_str = [] ->
  Source.file_paths files = [] ->
  Source.update_processed_paths e text_str files s = (s, Ok []) /\
  Source.update e text_str files s =
    (set_source_paths None s,
     Ok {| Source.audio_value := None; Source.image_value := None |}).
Proof.
  intros Hset Ht Hf.
  assert (E : Source.all_raw_paths e text_str files = []).
  { unfold Source.all_raw_paths. rewrite Ht, Hf. simpl.
    destruct (set_order e []) as [|x l] eqn:O; [reflexivity|].
    exfalso. destruct (Hset []) as [_ H]. rewrite O in H.
    specialize (H x). destruct H as [H _].
    eapply elem_of_nil, H. constructor. }
  assert (P : Source.update_processed_paths e text_str files s = (s, Ok [])).
  { unfold Source.update_processed_paths. rewrite E. reflexivity. }
  split; [exact P|]. unfold Source.update, bind. rewrite P. reflexivity.
Qed.

(** ** The concrete world again *)

Lemma demo_helpers_read_files_only : Spec.helpers_read_files_only Demo.env.
Proof.
  intros s1 s2 p H. simpl. unfold Demo.stat_size. rewrite H. auto.
Qed.

Lemma demo_kinds_exclusive (s0 : State) (p : string) :
  is_image Demo.env s0 p && is_video Demo.env s0 p = false.
Proof.
  simpl. unfold Demo.ext_is_image, Demo.ext_is_video, Demo.has_ext.
  generalize (Py.lower (snd (PosixPath.splitext p))). intros x.
  destruct (existsb (String.eqb x) [".jpg"; ".jpeg"; ".png"; ".gif"; ".bmp"]) eqn:E;
    [|reflexivity].
  apply existsb_exists in E. destruct E as (y & Hin & Heq).
  apply String.eqb_eq in Heq. subst y. simpl in Hin.
  destruct Hin as [<-|[<-|[<-|[<-|[<-|[]]]]]]; reflexivity.
Qed.


Lemma X2_witness :
  Py.strip "  " = "" /\
  Target.update Demo.env "  " (Some {| name := "" |}) Demo.state =
    ([Target.blank Target.NoInput], set_target_path None Demo.state, Ok tt).
Proof.
  split; [reflexivity|].
  apply (X2_update_without_input Demo.env "  " (Some {| name := "" |}) Demo.state).
  - reflexivity.
  - right. exists {| name := "" |}. split; reflexivity.
Defined.

Lemma X3_witness :
  Target.final_raw_path "missing.jpg" None <> "" /\
  Source.is_url (Target.final_raw_path "missing.jpg" None) = false /\
  Fs.isfile Demo.env Demo.state (Target.final_raw_path "missing.jpg" None) = false /\
  Target.update Demo.env "missing.jpg" None Demo.state =
    ([Target.blank Target.InvalidOrMissing], set_target_path None Demo.state, Ok tt).
Proof.
  assert (H1 : Target.final_raw_path "missing.jpg" None <> "") by discriminate.
  assert (H2 : Source.is_url (Target.final_raw_path "missing.jpg" None) = false)
    by reflexivity.
  assert (H3 : Fs.isfile Demo.env Demo.state (Target.final_raw_path "missing.jpg" None)
               = false) by (vm_compute; reflexivity).
  split; [exact H1|]. split; [exact H2|]. split; [exact H3|].
  exact (X3_update_on_missing_file Demo.env "missing.jpg" None Demo.state H1 H2 H3).
Defined.


Lemma X5_witness :
  Spec.fetch_fails Demo.env "http://bad-host/x.png" /\
  Tempfile.NamedTemporaryFile Demo.env (Spec.suffix_for "http://bad-host/x.png")
    (gettempdir Demo.env) Demo.state
  = (Fs.create Demo.env "/tmp/tmpf7.png" (set_names_drawn 1 Demo.state),
     Ok "/tmp/tmpf7.png") /\
  exists ex,
    Source.download_file Demo.env "http://bad-host/x.png" Demo.state
      = (Fs.create Demo.env "/tmp/tmpf7.png" (set_names_drawn 1 Demo.state), Raise ex) /\
    Fs.isfile Demo.env Demo.state "/tmp/tmpf7.png" = false /\
    Fs.read Demo.env (Fs.create Demo.env "/tmp/tmpf7.png" (set_names_drawn 1 Demo.state))
      "/tmp/tmpf7.png" = Some [].
Proof.
  assert (H1 : Spec.fetch_fails Demo.env "http://bad-host/x.png")
    by (change (400 <= 404 < 600); lia).
  assert (H2 : Tempfile.NamedTemporaryFile Demo.env
                 (Spec.suffix_for "http://bad-host/x.png") (gettempdir Demo.env) Demo.state
               = (Fs.create Demo.env "/tmp/tmpf7.png" (set_names_drawn 1 Demo.state),
                  Ok "/tmp/tmpf7.png")) by (vm_compute; reflexivity).
  split; [exact H1|]. split; [exact H2|].
  exact (X5_failed_fetch_leaves_temp_file Demo.env "http://bad-host/x.png" Demo.state
           _ "/tmp/tmpf7.png" H1 H2).
Defined.


Lemma X7_witness :
  Fs.isfile Demo.env Demo.state "/data/valid.png" = true /\
  Fs.isfile Demo.env
    (fst (Source.update Demo.env "/data/valid.png, http://bad-host/x.png" [] Demo.state))
    "/data/valid.png" = true /\
  Fs.isfile Demo.env
    (snd (fst (Target.update Demo.env "/data/valid.png" None Demo.state)))
    "/data/valid.png" = true.
Proof.
  assert (H : Fs.isfile Demo.env Demo.state "/data/valid.png" = true)
    by (vm_compute; reflexivity).
  destruct (X7_no_file_is_removed Demo.env Demo.state "/data/valid.png" H) as [A B].
  split; [exact H|]. split.
  - apply (A "/data/valid.png, http://bad-host/x.png" [] _
             (snd (Source.update Demo.env "/data/valid.png, http://bad-host/x.png" []
                     Demo.state))).
    apply surjective_pairing.
  - destruct (Target.update Demo.env "/data/valid.png" None Demo.state)
      as [[ys s'] r] eqn:E.
    exact (B "/data/valid.png" None ys s' r E).
Defined.

Lemma X8_witness :
  target_path
    (fst (Source.update Demo.env "/data/valid.png" [] Demo.state_with_folder)) = None /\
  custom_temp_folder
    (fst (Source.update Demo.env "/data/valid.png" [] Demo.state_with_folder))
    = Some "/downloads" /\
  custom_temp_folder
    (snd (fst (Target.update Demo.env "https://example.com/cat.png" None
                 Demo.state_with_folder))) = Some "/downloads".
Proof.
  destruct (X8_handlers_keep_to_their_item Demo.env Demo.state_with_folder) as [A B].
  destruct (A "/data/valid.png" [] _ _ (surjective_pairing _)) as [T C].
  split; [exact T|]. split; [exact C|].
  destruct (Target.update Demo.env "https://example.com/cat.png" None
              Demo.state_with_folder) as [[ys s'] r] eqn:E.
  exact (proj2 (B "https://example.com/cat.png" None ys s' r E)).
Defined.




Lemma X12_witness :
  Source.download_file Demo.env "https://example.com/cat.png" Demo.state
  = (fst (Source.download_file Demo.env "https://example.com/cat.png" Demo.state),
     Ok "/tmp/tmpf7.png") /\
  Source.download_file Demo.env "https://example.com/file"
    (fst (Source.download_file Demo.env "https://example.com/cat.png" Demo.state))
  = (fst (Source.download_file Demo.env "https://example.com/file"
            (fst (Source.download_file Demo.env "https://example.com/cat.png"
                    Demo.state))),
     Ok "/tmp/tmpf7q.tmp") /\
  realpath Demo.env "/tmp/tmpf7.png" <> realpath Demo.env "/tmp/tmpf7q.tmp".
Proof.
  assert (D1 : Source.download_file Demo.env "https://example.com/cat.png" Demo.state
               = (fst (Source.download_file Demo.env "https://example.com/cat.png"
                         Demo.state), Ok "/tmp/tmpf7.png")) by (vm_compute; reflexivity).
  assert (D2 : Source.download_file Demo.env "https://example.com/file"
                 (fst (Source.download_file Demo.env "https://example.com/cat.png"
                         Demo.state))
               = (fst (Source.download_file Demo.env "https://example.com/file"
                         (fst (Source.download_file Demo.env
                                 "https://example.com/cat.png" Demo.state))),
                  Ok "/tmp/tmpf7q.tmp")) by (vm_compute; reflexivity).
  split; [exact D1|]. split; [exact D2|].
  exact (proj1 (X12_downloads_use_distinct_files Demo.env _ _ _ _ _ _ _ D1 D2)).
Defined.

Lemma X13_witness :
  Source.download_file Demo.env "https://example.com/cat.png" Demo.state
  = (fst (Source.download_file Demo.env "https://example.com/cat.png" Demo.state),
     Ok "/tmp/tmpf7.png") /\
  exists r,
    Spec.fetch_succeeds Demo.env "https://example.com/cat.png" r /\
    Fs.read Demo.env
      (fst (Source.download_file Demo.env "https://example.com/cat.png" Demo.state))
      "/tmp/tmpf7.png" = Some (Requests.content r).
Proof.
  assert (D : Source.download_file Demo.env "https://example.com/cat.png" Demo.state
              = (fst (Source.download_file Demo.env "https://example.com/cat.png"
                        Demo.state), Ok "/tmp/tmpf7.png")) by (vm_compute; reflexivity).
  split; [exact D|].
  destruct (X13_download_file_stores_body Demo.env _ _ _ _ D) as (r & F & R & _).
  exists r. split; [exact F|exact R].
Defined.

Lemma demo_fetch_cat :
  Spec.fetch_succeeds Demo.env "https://example.com/cat.png"
    {| status_code := 200; content_length := Some 5; body_parts := Demo.png_body |}.
Proof. split; [reflexivity|]. simpl. lia. Qed.

Lemma demo_fetch_file :
  Spec.fetch_succeeds Demo.env "https://example.com/file"
    {| status_code := 200; content_length := None; body_parts := [[x2a]] |}.
Proof. split; [reflexivity|]. simpl. lia. Qed.

Lemma X14_witness :
  Tempfile.NamedTemporaryFile Demo.env (Spec.suffix_for "https://example.com/cat.png")
    (Target.download_folder Demo.env Demo.state) Demo.state
  = (Fs.create Demo.env "/tmp/tmpf7.png" (set_names_drawn 1 Demo.state),
     Ok "/tmp/tmpf7.png") /\
  exists s',
    (exists ex,
        Target.update Demo.env "https://example.com/cat.png" None Demo.state
        = ([Target.blank (Target.DownloadingPct 60);
            Target.blank (Target.DownloadingPct 100)], s', Raise ex)) \/
    (exists final,
        Target.update Demo.env "https://example.com/cat.png" None Demo.state
        = ([Target.blank (Target.DownloadingPct 60);
            Target.blank (Target.DownloadingPct 100);
            Target.blank Target.DownloadComplete; final], s', Ok tt)).
Proof.
  assert (T : Tempfile.NamedTemporaryFile Demo.env
                (Spec.suffix_for "https://example.com/cat.png")
                (Target.download_folder Demo.env Demo.state) Demo.state
              = (Fs.create Demo.env "/tmp/tmpf7.png" (set_names_drawn 1 Demo.state),
                 Ok "/tmp/tmpf7.png")) by (vm_compute; reflexivity).
  split; [exact T|].
  destruct (X14_values_of_a_download Demo.env "https://example.com/cat.png" None
              Demo.state _ _ "/tmp/tmpf7.png" eq_refl demo_fetch_cat T)
    as (s' & [(ex & E)|(final & E & _)]); exists s'.
  - left. exists ex. exact E.
  - right. exists final. exact E.
Defined.

Lemma X15_witness :
  exists pcts rest s' res,
    Target.update Demo.env "https://example.com/cat.png" None Demo.state =
      (List.map (fun pct => Target.blank (Target.DownloadingPct pct)) pcts ++ rest,
       s', res) /\
    StronglySorted Z.le pcts /\
    Forall (fun pct => 0 <= pct <= 100) pcts /\
    last pcts = Some 100.
Proof.
  assert (T : Tempfile.NamedTemporaryFile Demo.env
                (Spec.suffix_for "https://example.com/cat.png")
                (Target.download_folder Demo.env Demo.state) Demo.state
              = (Fs.create Demo.env "/tmp/tmpf7.png" (set_names_drawn 1 Demo.state),
                 Ok "/tmp/tmpf7.png")) by (vm_compute; reflexivity).
  destruct (X15_progress_percentages Demo.env "https://example.com/cat.png" None
              Demo.state _ _ "/tmp/tmpf7.png" 5 eq_refl demo_fetch_cat T eq_refl
              ltac:(lia) eq_refl)
    as (pcts & rest & s' & res & E & S & B & L & _).
  exists pcts, rest, s', res. auto.
Defined.

Lemma X16_witness :
  Tempfile.NamedTemporaryFile Demo.env (Spec.suffix_for "https://example.com/cat.png")
    (Target.download_folder Demo.env Demo.state_with_folder) Demo.state_with_folder
  = (Fs.create Demo.env "/downloads/tmpf7.png"
       (set_names_drawn 1 Demo.state_with_folder), Ok "/downloads/tmpf7.png") /\
  Target.is_in_allowed_dir Demo.env "/downloads/tmpf7.png" = false /\
  exists ys s',
    Target.obtain_local_path Demo.env "https://example.com/cat.png" Demo.state_with_folder
      = (ys, s', Ok (Some "/tmp/tmpf7.png")) /\
    Fs.read Demo.env s' "/tmp/tmpf7.png" = Fs.read Demo.env s' "/downloads/tmpf7.png".
Proof.
  assert (T : Tempfile.NamedTemporaryFile Demo.env
                (Spec.suffix_for "https://example.com/cat.png")
                (Target.download_folder Demo.env Demo.state_with_folder)
                Demo.state_with_folder
              = (Fs.create Demo.env "/downloads/tmpf7.png"
                   (set_names_drawn 1 Demo.state_with_folder),
                 Ok "/downloads/tmpf7.png")) by (vm_compute; reflexivity).
  assert (A : Target.is_in_allowed_dir Demo.env "/downloads/tmpf7.png" = false)
    by (vm_compute; reflexivity).
  split; [exact T|]. split; [exact A|].
  destruct (X16_download_outside_is_copied Demo.env "https://example.com/cat.png"
              Demo.state_with_folder _ _ "/downloads/tmpf7.png" eq_refl demo_fetch_cat T A)
    as (ys & s' & E & R1 & R2).
  - vm_compute. discriminate.
  - exists ys, s'. split; [exact E|].
    transitivity (Some (Requests.content
                          {| status_code := 200; content_length := Some 5;
                             body_parts := Demo.png_body |}));
      [exact R1|symmetry; exact R2].
Defined.

Lemma X17_witness :
  exists rest s' res,
    Target.update Demo.env "https://example.com/file" None Demo.state =
      (Target.blank (Target.DownloadedBytes 1) :: rest, s', res).
Proof.
  assert (T : Tempfile.NamedTemporaryFile Demo.env
                (Spec.suffix_for "https://example.com/file")
                (Target.download_folder Demo.env Demo.state) Demo.state
              = (Fs.create Demo.env "/tmp/tmpf7.tmp" (set_names_drawn 1 Demo.state),
                 Ok "/tmp/tmpf7.tmp")) by (vm_compute; reflexivity).
  destruct (X17_progress_byte_counts Demo.env "https://example.com/file" None
              Demo.state _ _ "/tmp/tmpf7.tmp" eq_refl demo_fetch_file T eq_refl)
    as (rest & s' & res & E & _).
  exists rest, s', res. exact E.
Defined.


Lemma X20_witness :
  Spec.helpers_read_files_only Demo.env /\
  exists shown,
    last (fst (fst (Target.update Demo.env "/data/valid.png" None Demo.state)))
      = Some shown /\
    Target.target_image
      (Target.render Demo.env
         (snd (fst (Target.update Demo.env "/data/valid.png" None Demo.state))))
    = Target.image_value shown.
Proof.
  split; [exact demo_helpers_read_files_only|].
  assert (H : Target.update Demo.env "/data/valid.png" None Demo.state
              = (fst (fst (Target.update Demo.env "/data/valid.png" None Demo.state)),
                 snd (fst (Target.update Demo.env "/data/valid.png" None Demo.state)),
                 Ok tt)) by (vm_compute; reflexivity).
  destruct (X20_render_after_target_update Demo.env "/data/valid.png" None Demo.state
              _ _ demo_helpers_read_files_only demo_kinds_exclusive H)
    as (shown & L & I & _).
  exists shown. split; [exact L|exact I].
Defined.

Lemma X21_witness :
  Spec.helpers_read_files_only Demo.env /\
  Source.source_image
    (Source.render Demo.env
       (fst (Source.update Demo.env "/data/valid.png, missing.jpg" [] Demo.state)))
  = Some "/tmp/valid.png".
Proof.
  split; [exact demo_helpers_read_files_only|].
  assert (H : Source.update Demo.env "/data/valid.png, missing.jpg" [] Demo.state
              = (fst (Source.update Demo.env "/data/valid.png, missing.jpg" []
                        Demo.state),
                 Ok {| Source.audio_value := None;
                       Source.image_value := Some "/tmp/valid.png" |}))
    by (vm_compute; reflexivity).
  exact (proj1 (proj2 (X21_render_after_source_update Demo.env _ [] Demo.state _ _
                         demo_helpers_read_files_only H))).
Defined.

Lemma X22_witness :
  Source.is_url "HTTPS://Example.com" = true /\
  Source.is_url ("HTTPS://Example.com" +:+ "/cat.png") = true.
Proof.
  split; [reflexivity|].
  exact (proj1 (proj2 (X22_is_url_by_scheme "HTTPS://Example.com")) "/cat.png" eq_refl).
Defined.

Lemma X23_witness :
  set_order_ok Demo.env /\
  Source.textbox_paths " , ,, " = [] /\
  Source.update Demo.env " , ,, " [None; Some {| name := "" |}] Demo.state_with_folder =
    (set_source_paths None Demo.state_with_folder,
     Ok {| Source.audio_value := None; Source.image_value := None |}).
Proof.
  split; [exact first_seen_ok|]. split; [reflexivity|].
  exact (proj2 (X23_empty_batch Demo.env " , ,, " [None; Some {| name := "" |}]
                  Demo.state_with_folder first_seen_ok eq_refl eq_refl)).
Defined.
